(** * MergeMate: the file ingestion and merge pipeline

    A shallow embedding of the Python sources

      - [src/file_merger.py]     (the single-file version of the tool),
      - [src/src/file_utils.py]  (encoding detection, file reading, type filter),
      - [src/src/zip_utils.py]   (archive expansion),
      - [src/src/app.py]         (merge engine and statistics of the app class),

    followed by the properties of the pipeline.

    Conventions of the embedding.

    - A Python [str] is a [string]; the model covers code points below 256,
      and [str.lower] is the ASCII lowering.  [bytes] is [list Byte.byte].
    - Code that performs I/O lives in the monad [M]: a computation takes the
      state of the outside world and gives back either a value or a raised
      exception, together with the new state of the world.
    - The operating system and the third-party libraries ([open], [chardet],
      [zipfile], [tempfile], [os.walk], [streamlit]) are the fields of the
      class [Platform]; nothing is assumed about them.
    - Exceptions are the subclasses of Python's [Exception]; asynchronous
      interrupts ([KeyboardInterrupt], [SystemExit]) are outside the model,
      so a bare [except:] and [except Exception] catch the same exceptions.
    - Paths follow the POSIX flavour of [os.path] and [pathlib]. *)

From Stdlib Require Import Ascii String ZArith Lia.
From stdpp Require Import base list strings gmap sorting.

Local Open Scope Z_scope.

(** ** Python strings *)

Module Str.

(** [c * n] for a one-character string [c]. *)
Fixpoint repeat (c : ascii) (n : nat) : string :=
  match n with
  | O => EmptyString
  | S n' => String c (repeat c n')
  end.

(** [s[i:]] for [0 <= i]. *)
Fixpoint drop (i : nat) (s : string) : string :=
  match i, s with
  | O, _ => s
  | S _, EmptyString => EmptyString
  | S i', String _ s' => drop i' s'
  end.

Fixpoint rfind_from (c : ascii) (s : string) (i found : Z) : Z :=
  match s with
  | EmptyString => found
  | String a s' => rfind_from c s' (i + 1) (if Ascii.eqb a c then i else found)
  end.

(** [s.rfind(c)]: the highest index of [c] in [s], or [-1]. *)
Definition rfind (c : ascii) (s : string) : Z := rfind_from c s 0 (-1).

(** [s[i:]] with the index as computed by the caller. *)
Definition slice_from (i : Z) (s : string) : string := drop (Z.to_nat i) s.

Definition lower_char (c : ascii) : ascii :=
  let n := N_of_ascii c in
  if ((65 <=? n) && (n <=? 90))%N then ascii_of_N (n + 32) else c.

(** [s.lower()]. *)
Fixpoint lower (s : string) : string :=
  match s with
  | EmptyString => EmptyString
  | String c s' => String (lower_char c) (lower s')
  end.

(** [s.count(c)] for a one-character string [c]. *)
Fixpoint count (c : ascii) (s : string) : nat :=
  match s with
  | EmptyString => O
  | String a s' => (if Ascii.eqb a c then 1 else 0) + count c s'
  end%nat.

Fixpoint split_acc (sep : ascii) (s : string) (cur : string) : list string :=
  match s with
  | EmptyString => [String.rev cur]
  | String a s' =>
      if Ascii.eqb a sep then String.rev cur :: split_acc sep s' EmptyString
      else split_acc sep s' (String a cur)
  end.

(** [s.split(sep)] for a one-character separator. *)
Definition split (sep : ascii) (s : string) : list string :=
  split_acc sep s EmptyString.

(** [s.startswith(c)], [s.endswith(c)] for a one-character string [c]. *)
Definition startswith (c : ascii) (s : string) : bool :=
  match s with
  | String a _ => Ascii.eqb a c
  | EmptyString => false
  end.

Fixpoint endswith (c : ascii) (s : string) : bool :=
  match s with
  | EmptyString => false
  | String a EmptyString => Ascii.eqb a c
  | String _ s' => endswith c s'
  end.

(** ["".join(l)]. *)
Definition join (l : list string) : string := String.concat "" l.

End Str.

Definition LF : ascii := ascii_of_nat 10.
Definition NL : string := String LF EmptyString.

(** ** [os.path] and [pathlib], POSIX flavour *)

Module os_path.

(** [posixpath.basename]: [i = p.rfind('/') + 1; return p[i:]]. *)
Definition basename (p : string) : string :=
  let i := Str.rfind "/" p + 1 in
  Str.slice_from i p.

(** [posixpath.join] of two components. *)
Definition join (a b : string) : string :=
  if Str.startswith "/" b then b
  else if (String.eqb a "" || Str.endswith "/" a)%bool then a +:+ b
  else a +:+ "/" +:+ b.

End os_path.

Module pathlib.

(** The parsed components of a path: the pieces between slashes, without
    the empty ones and the single dots. *)
Definition parts (p : string) : list string :=
  List.filter (fun x => negb (String.eqb x "") && negb (String.eqb x "."))
              (Str.split "/" p).

(** [Path(p).name]: the final component, or [''] when there is none. *)
Definition name (p : string) : string := List.last (parts p) "".

(** [Path(p).suffix]:
    [i = name.rfind('.'); name[i:] if 0 < i < len(name) - 1 else ''].
    A name that starts with its only dot, or ends with a dot, has no
    suffix (the rule of Python up to 3.13). *)
Definition suffix (p : string) : string :=
  let name := name p in
  let i := Str.rfind "." name in
  if (0 <? i) && (i <? Z.of_nat (String.length name) - 1)
  then Str.slice_from i name
  else "".

End pathlib.

(** ** Exceptions and the monad of effectful code *)

Inductive exc_class : Type :=
| UnicodeDecodeError
| LookupError
| OSError
| BadZipFile
| IndexError
| Exception.

Global Instance exc_class_eq_dec : EqDecision exc_class.
Proof. solve_decision. Defined.

(** An exception object: its class and [str(e)]. *)
Record exn : Type := Exn { exn_class : exc_class; exn_str : string }.

Inductive outcome (A : Type) : Type :=
| Ret (a : A)
| Raise (e : exn).
Arguments Ret {A} a.
Arguments Raise {A} e.

Definition M (W A : Type) : Type := W -> outcome A * W.

Section monad.
Context {W : Type}.

Definition ret {A} (a : A) : M W A := fun w => (Ret a, w).

Definition raise {A} (e : exn) : M W A := fun w => (Raise e, w).

Definition bind {A B} (m : M W A) (k : A -> M W B) : M W B :=
  fun w =>
    match m w with
    | (Ret a, w') => k a w'
    | (Raise e, w') => (Raise e, w')
    end.

(** One [except] clause: which exceptions it catches, and its body. *)
Record except_clause (A : Type) : Type :=
  Except { catches : exn -> bool; handler : exn -> M W A }.
Arguments Except {A} catches handler.

(** [except C as e: h e]. *)
Definition except_ {A} (C : exc_class) (h : exn -> M W A) : except_clause A :=
  Except (fun e => bool_decide (exn_class e = C)) h.

(** [except Exception as e: h e] and the bare [except: h]. *)
Definition except_Exception {A} (h : exn -> M W A) : except_clause A :=
  Except (fun _ => true) h.
Definition except_all {A} (h : M W A) : except_clause A :=
  Except (fun _ => true) (fun _ => h).

Fixpoint dispatch {A} (cs : list (except_clause A)) (e : exn) : M W A :=
  match cs with
  | [] => raise e
  | c :: cs' => if catches A c e then handler A c e else dispatch cs' e
  end.

(** [try: body  except ...: ...]: the first clause that catches the
    exception runs; an exception raised by a handler is not caught by
    the clauses of the same statement. *)
Definition try_ {A} (body : M W A) (cs : list (except_clause A)) : M W A :=
  fun w =>
    match body w with
    | (Ret a, w') => (Ret a, w')
    | (Raise e, w') => dispatch cs e w'
    end.

End monad.

Arguments Except {W A} catches handler.

Declare Scope py_scope.
Delimit Scope py_scope with py.
Notation "x <- m ;; k" := (bind m (fun x => k))
  (at level 100, m at next level, right associativity) : py_scope.
Notation "m ;;; k" := (bind m (fun _ => k))
  (at level 100, right associativity) : py_scope.
Local Open Scope py_scope.

(** ** The platform: operating system and libraries *)

Inductive decode_errors : Type := Strict | Ignore.

(** One item yielded by [os.walk]: [(root, dirs, files)]. *)
Definition walk_item : Type := string * list string * list string.

Class Platform : Type := {
  World : Type;
  BinaryFile : Type;
  TextFile : Type;
  UploadedFile : Type;
  ZipRef : Type;
  (** [open(path, 'rb')] and [file.read()] on the result *)
  open_rb : string -> M World BinaryFile;
  read_rb : BinaryFile -> M World (list Byte.byte);
  (** [chardet.detect(raw)['encoding']], [None] when there is no guess *)
  chardet_detect : list Byte.byte -> M World (option string);
  (** [open(path, 'r', encoding=..., errors=...)] and [file.read()] *)
  open_r : string -> string -> decode_errors -> M World TextFile;
  read_r : TextFile -> M World string;
  (** [tempfile.mkdtemp()] *)
  mkdtemp : M World string;
  (** [zipfile.ZipFile(f, 'r')] and [zip_ref.extractall(dir)] *)
  ZipFile : UploadedFile -> M World ZipRef;
  extractall : ZipRef -> string -> M World unit;
  (** [os.walk(dir)], all items *)
  os_walk : string -> M World (list walk_item);
  (** [st.error(msg)] *)
  st_error : string -> M World unit;
}.

(** ** Helpers shared by the Python modules *)

(** [o if o else d] on an optional string: [None] and [''] are falsy. *)
Definition if_truthy_else (o : option string) (d : string) : string :=
  match o with
  | Some s => if String.eqb s "" then d else s
  | None => d
  end.

(** [l[-1]]: the last element; [IndexError] on the empty list. *)
Definition index_last {W} (l : list string) : M W string :=
  match List.last (List.map Some l) None with
  | Some x => ret x
  | None => raise (Exn IndexError "list index out of range")
  end.

(** The order of [sorted] on strings: code point by code point. *)
Definition str_le (a b : string) : Prop := String.leb a b = true.

Global Instance str_le_dec : RelDecision str_le.
Proof. intros a b. unfold str_le. apply _. Defined.

(** [sorted(l)] on a list of strings.  On a total order the result of a
    sort does not depend on the algorithm, so merge sort stands for
    Python's. *)
Definition sorted (l : list string) : list string := merge_sort str_le l.

(** The strings appended to the list [merged_content] of [merge_files].
    The source's list holds plain strings; the embedding tags each one with
    the statement that appended it, and [text] forgets the tag. *)
Inductive piece : Type :=
| Header (s : string)
| Content (s : string)
| Separator (s : string).

Definition text (p : piece) : string :=
  match p with
  | Header s | Content s | Separator s => s
  end.

(** The numbers shown by the statistics panel. *)
Record statistics : Type := Statistics {
  files_merged : nat;
  total_characters : nat;
  total_lines : nat;
}.

(** The body of the two nested [for] loops over [os.walk]:
[[
    for root, dirs, files in os.walk(temp_dir):
        for file in files:
            file_path = os.path.join(root, file)
            if is_text_file(file_path):
                file_paths.append(file_path)
]] *)
Definition walk_loop (is_text_file : string -> bool)
    (items : list walk_item) (file_paths : list string) : list string :=
  foldl (fun file_paths '(root, dirs, files) =>
           foldl (fun file_paths file =>
                    let file_path := os_path.join root file in
                    if is_text_file file_path
                    then file_paths ++ [file_path]
                    else file_paths)
                 file_paths files)
        file_paths items.

(** ** [src/src/file_utils.py] *)

Module file_utils.

Definition SUPPORTED_EXTENSIONS : gset string :=
  {[ ".txt"; ".xml"; ".java"; ".py"; ".js"; ".html"; ".css"; ".json";
     ".md"; ".yml"; ".yaml"; ".ini"; ".cfg"; ".conf"; ".log"; ".sql";
     ".c"; ".cpp"; ".h"; ".hpp"; ".cs"; ".php"; ".rb"; ".go"; ".rs";
     ".sh"; ".bat"; ".ps1"; ".r"; ".scala"; ".kt"; ".swift"; ".dart";
     ".tsx"; ".jsx"; ".vue"; ".svelte"; ".ts"; ".coffee"; ".less";
     ".scss"; ".sass"; ".styl"; ".pug"; ".ejs"; ".hbs"; ".mustache" ]}.

Definition is_text_file (file_path : string) : bool :=
  bool_decide (Str.lower (pathlib.suffix file_path) ∈ SUPPORTED_EXTENSIONS).

Section with_platform.
Context `{Platform}.

Definition detect_encoding (file_path : string) : M World string :=
  try_ (file <- open_rb file_path;;
        raw_data <- read_rb file;;
        result <- chardet_detect raw_data;;
        ret (if_truthy_else result "utf-8"))
    [ except_all (ret "utf-8") ].

Definition read_file_content (file_path : string) : M World (string * bool) :=
  try_ (encoding <- detect_encoding file_path;;
        file <- open_r file_path encoding Strict;;
        content <- read_r file;;
        ret (content, true))
    [ except_ UnicodeDecodeError (fun _ =>
        try_ (file <- open_r file_path "utf-8" Ignore;;
              content <- read_r file;;
              ret (content, true))
          [ except_all
              (ret ("[Error: Could not read file " +:+ file_path +:+ "]",
                    false)) ]);
      except_Exception (fun e =>
        ret ("[Error reading " +:+ file_path +:+ ": " +:+ exn_str e +:+ "]",
             false)) ].

End with_platform.

End file_utils.

(** ** [src/src/zip_utils.py] *)

Module zip_utils.
Section with_platform.
Context `{Platform}.

Definition extract_zip_files (zip_file : UploadedFile) : M World (list string) :=
  temp_dir <- mkdtemp;;
  let file_paths := [] in
  try_ (zip_ref <- ZipFile zip_file;;
        extractall zip_ref temp_dir;;;
        items <- os_walk temp_dir;;
        let file_paths := walk_loop file_utils.is_text_file items file_paths in
        ret (sorted file_paths))
    [ except_Exception (fun e =>
        raise (Exn Exception ("Error extracting zip file: " +:+ exn_str e))) ].

End with_platform.
End zip_utils.

(** ** [src/src/app.py], class [FileMergerApp] *)

Module app.

(** The separator of [render_options] when no custom one is asked for:
    ["\n" + "=" * 80 + "\n"]. *)
Definition default_separator : string := NL +:+ Str.repeat "=" 80 +:+ NL.

Section with_platform.
Context `{Platform}.

(** The [for] loop of [merge_files]; [todo] is what is left of
    [file_paths], [merged_content] the list built so far. *)
Fixpoint merge_loop (file_paths : list string) (separator : string)
    (todo : list string) (merged_content : list piece)
    : M World (list piece) :=
  match todo with
  | [] => ret merged_content
  | file_path :: todo' =>
      let filename := os_path.basename file_path in
      let header :=
        NL +:+ filename +:+ ":" +:+ NL +:+
        Str.repeat "-" (String.length filename + 1) +:+ NL in
      let merged_content := merged_content ++ [Header header] in
      r <- file_utils.read_file_content file_path;;
      let '(content, success) := r in
      let merged_content := merged_content ++ [Content content] in
      last <- index_last file_paths;;
      let merged_content :=
        if negb (String.eqb file_path last)
        then merged_content ++ [Separator separator]
        else merged_content in
      merge_loop file_paths separator todo' merged_content
  end.

Definition merge_pieces (file_paths : list string) (separator : string)
    : M World (list piece) :=
  merge_loop file_paths separator file_paths [].

Definition merge_files (file_paths : list string) (separator : string)
    : M World string :=
  merged_content <- merge_pieces file_paths separator;;
  ret (Str.join (List.map text merged_content)).

End with_platform.

(** [render_statistics]: the values handed to the three [st.metric]
    calls, before they are formatted for display. *)
Definition render_statistics (merged_content : string) (file_paths : list string)
    : statistics :=
  {| files_merged := length file_paths;
     total_characters := String.length merged_content;
     total_lines := Str.count LF merged_content + 1 |}.

End app.

(** ** [src/file_merger.py], the single-file version *)

Module file_merger.

(** The local [text_extensions] of [is_text_file]. *)
Definition text_extensions : gset string :=
  {[ ".txt"; ".xml"; ".java"; ".py"; ".js"; ".html"; ".css"; ".json";
     ".md"; ".yml"; ".yaml"; ".ini"; ".cfg"; ".conf"; ".log"; ".sql";
     ".c"; ".cpp"; ".h"; ".hpp"; ".cs"; ".php"; ".rb"; ".go"; ".rs";
     ".sh"; ".bat"; ".ps1"; ".r"; ".scala"; ".kt"; ".swift"; ".dart";
     ".tsx"; ".jsx"; ".vue"; ".svelte"; ".ts"; ".coffee"; ".less";
     ".scss"; ".sass"; ".styl"; ".pug"; ".ejs"; ".hbs"; ".mustache" ]}.

Definition is_text_file (file_path : string) : bool :=
  bool_decide (Str.lower (pathlib.suffix file_path) ∈ text_extensions).

(** The default value of the parameter [separator] of [merge_files]:
    ["\n" + "="*80 + "\n"]. *)
Definition default_separator : string := NL +:+ Str.repeat "=" 80 +:+ NL.

Section with_platform.
Context `{Platform}.

Definition detect_encoding (file_path : string) : M World string :=
  try_ (file <- open_rb file_path;;
        raw_data <- read_rb file;;
        result <- chardet_detect raw_data;;
        ret (if_truthy_else result "utf-8"))
    [ except_all (ret "utf-8") ].

Definition read_file_content (file_path : string) : M World (string * bool) :=
  try_ (encoding <- detect_encoding file_path;;
        file <- open_r file_path encoding Strict;;
        content <- read_r file;;
        ret (content, true))
    [ except_ UnicodeDecodeError (fun _ =>
        try_ (file <- open_r file_path "utf-8" Ignore;;
              content <- read_r file;;
              ret (content, true))
          [ except_all
              (ret ("[Error: Could not read file " +:+ file_path +:+ "]",
                    false)) ]);
      except_Exception (fun e =>
        ret ("[Error reading " +:+ file_path +:+ ": " +:+ exn_str e +:+ "]",
             false)) ].

Fixpoint merge_loop (file_paths : list string) (separator : string)
    (todo : list string) (merged_content : list piece)
    : M World (list piece) :=
  match todo with
  | [] => ret merged_content
  | file_path :: todo' =>
      let filename := os_path.basename file_path in
      let header :=
        NL +:+ filename +:+ ":" +:+ NL +:+
        Str.repeat "-" (String.length filename + 1) +:+ NL in
      let merged_content := merged_content ++ [Header header] in
      r <- read_file_content file_path;;
      let '(content, success) := r in
      let merged_content := merged_content ++ [Content content] in
      last <- index_last file_paths;;
      let merged_content :=
        if negb (String.eqb file_path last)
        then merged_content ++ [Separator separator]
        else merged_content in
      merge_loop file_paths separator todo' merged_content
  end.

Definition merge_pieces (file_paths : list string) (separator : string)
    : M World (list piece) :=
  merge_loop file_paths separator file_paths [].

Definition merge_files (file_paths : list string) (separator : string)
    : M World string :=
  merged_content <- merge_pieces file_paths separator;;
  ret (Str.join (List.map text merged_content)).

Definition extract_zip_files (zip_file : UploadedFile) : M World (list string) :=
  temp_dir <- mkdtemp;;
  let file_paths := [] in
  try_ (zip_ref <- ZipFile zip_file;;
        extractall zip_ref temp_dir;;;
        items <- os_walk temp_dir;;
        let file_paths := walk_loop is_text_file items file_paths in
        ret (sorted file_paths))
    [ except_Exception (fun e =>
        st_error ("Error extracting zip file: " +:+ exn_str e);;;
        ret []) ].

End with_platform.

(** The statistics block of [main]: the values handed to the three
    [st.metric] calls, before they are formatted for display. *)
Definition main_statistics (merged_content : string) (file_paths : list string)
    : statistics :=
  {| files_merged := length file_paths;
     total_characters := String.length merged_content;
     total_lines := Str.count LF merged_content + 1 |}.

End file_merger.

(** ** A small in-memory platform

    A concrete platform on which the pipeline runs inside Rocq: a flat file
    system, text limited to ASCII (a byte from 128 on is undecodable), and
    archives given by their list of entries.  It instantiates the
    statements below at concrete inputs. *)

Module MemFS.

Record world : Type := MkWorld {
  files : list (string * list Byte.byte);
  tmp_count : nat;
  ui_errors : list string;
}.

(** An uploaded file: [None] is not a ZIP archive at all. *)
Definition upload : Type := option (list (string * list Byte.byte)).

Fixpoint lookup_file (path : string) (fs : list (string * list Byte.byte))
    : option (list Byte.byte) :=
  match fs with
  | [] => None
  | (p, b) :: fs' => if String.eqb p path then Some b else lookup_file path fs'
  end.

Definition is_ascii (b : Byte.byte) : bool := (Byte.to_N b <? 128)%N.

Definition no_such_file (path : string) : exn :=
  Exn OSError ("[Errno 2] No such file or directory: '" +:+ path +:+ "'").

Definition mem_open_rb (path : string) : M world (list Byte.byte) :=
  fun w =>
    match lookup_file path (files w) with
    | Some b => (Ret b, w)
    | None => (Raise (no_such_file path), w)
    end.

Definition mem_chardet (raw : list Byte.byte) : M world (option string) :=
  ret (match raw with
       | [] => None
       | _ => if forallb is_ascii raw then Some "ascii" else Some "utf-8"
       end).

Definition mem_open_r (path encoding : string) (errors : decode_errors)
    : M world (list Byte.byte * decode_errors) :=
  fun w =>
    match lookup_file path (files w) with
    | None => (Raise (no_such_file path), w)
    | Some b =>
        if (String.eqb encoding "ascii" || String.eqb encoding "utf-8")%bool
        then (Ret (b, errors), w)
        else (Raise (Exn LookupError ("unknown encoding: " +:+ encoding)), w)
    end.

Definition mem_read_r (f : list Byte.byte * decode_errors) : M world string :=
  match f with
  | (b, Strict) =>
      if forallb is_ascii b then ret (String.string_of_list_byte b)
      else raise (Exn UnicodeDecodeError "invalid start byte")
  | (b, Ignore) => ret (String.string_of_list_byte (List.filter is_ascii b))
  end.

Definition mem_mkdtemp : M world string :=
  fun w =>
    (Ret ("/tmp/tmp" +:+ Str.repeat "x" (tmp_count w)),
     {| files := files w; tmp_count := S (tmp_count w);
        ui_errors := ui_errors w |}).

Definition mem_ZipFile (f : upload) : M world (list (string * list Byte.byte)) :=
  match f with
  | Some entries => ret entries
  | None => raise (Exn BadZipFile "File is not a zip file")
  end.

Definition mem_extractall (entries : list (string * list Byte.byte))
    (dir : string) : M world unit :=
  fun w =>
    (Ret tt,
     {| files := List.map (fun e => (os_path.join dir (fst e), snd e)) entries
                 ++ files w;
        tmp_count := tmp_count w; ui_errors := ui_errors w |}).

(** The name of [path] inside [dir], when [path] lies directly in it. *)
Fixpoint name_in (dir path : string) : option string :=
  match dir, path with
  | EmptyString, String "/" n =>
      if (0 <=? Str.rfind "/" n) then None else Some n
  | String a dir', String b path' =>
      if Ascii.eqb a b then name_in dir' path' else None
  | _, _ => None
  end.

Definition mem_os_walk (dir : string) : M world (list walk_item) :=
  fun w =>
    (Ret [(dir, [], omap (fun e => name_in dir (fst e)) (files w))], w).

Definition mem_st_error (msg : string) : M world unit :=
  fun w =>
    (Ret tt,
     {| files := files w; tmp_count := tmp_count w;
        ui_errors := ui_errors w ++ [msg] |}).

Definition platform : Platform := {|
  World := world;
  BinaryFile := list Byte.byte;
  TextFile := list Byte.byte * decode_errors;
  UploadedFile := upload;
  ZipRef := list (string * list Byte.byte);
  open_rb := mem_open_rb;
  read_rb := ret;
  chardet_detect := mem_chardet;
  open_r := mem_open_r;
  read_r := mem_read_r;
  mkdtemp := mem_mkdtemp;
  ZipFile := mem_ZipFile;
  extractall := mem_extractall;
  os_walk := mem_os_walk;
  st_error := mem_st_error;
|}.

Definition bytes_of (s : string) : list Byte.byte := String.list_byte_of_string s.

Definition empty : world := {| files := []; tmp_count := 0; ui_errors := [] |}.

Definition with_files (fs : list (string * string)) : world :=
  {| files := List.map (fun e => (fst e, bytes_of (snd e))) fs;
     tmp_count := 0; ui_errors := [] |}.

End MemFS.

(** * Properties *)

(** ** Vocabulary of the statements *)

Section vocabulary.
Context `{Platform}.

(** The underlying read of the Encoding Detector: the whole byte content. *)
Definition read_bytes (file_path : string) : M World (list Byte.byte) :=
  file <- open_rb file_path;; read_rb file.

(** Reading [file_path] as text: opening it with an encoding and an
    error policy, and decoding all of it. *)
Definition read_text (file_path encoding : string) (errors : decode_errors)
    : M World string :=
  file <- open_r file_path encoding errors;; read_r file.

(** Extraction proper: opening the archive, unpacking it into [temp_dir]
    and listing the extracted tree. *)
Definition extract_and_walk (zip_file : UploadedFile) (temp_dir : string)
    : M World (list walk_item) :=
  zip_ref <- ZipFile zip_file;;
  extractall zip_ref temp_dir;;;
  os_walk temp_dir.

End vocabulary.

(** The full paths of the files listed by [os.walk], in its order. *)
Definition walked_files (items : list walk_item) : list string :=
  List.concat (List.map (fun '(root, dirs, files) =>
                           List.map (os_path.join root) files) items).

(** The header of a file in the merged document. *)
Definition header_of (file_path : string) : string :=
  let filename := os_path.basename file_path in
  NL +:+ filename +:+ ":" +:+ NL +:+
  Str.repeat "-" (String.length filename + 1) +:+ NL.

Definition headers (l : list piece) : list string :=
  omap (fun p => match p with Header s => Some s | _ => None end) l.

Definition separators (l : list piece) : list string :=
  omap (fun p => match p with Separator s => Some s | _ => None end) l.

Definition is_separator (p : piece) : bool :=
  match p with Separator _ => true | _ => false end.

(** What [merge_files] appends for one file whose content is [content],
    the list ending with the path [last]. *)
Definition segment (last separator : string) (file_path content : string)
    : list piece :=
  [Header (header_of file_path); Content content] ++
  (if negb (String.eqb file_path last) then [Separator separator] else []).

(** The allow-list of extensions as section 6 of the specification gives it. *)
Definition allow_list : list string :=
  [ ".txt"; ".xml"; ".java"; ".py"; ".js"; ".html"; ".css"; ".json"; ".md";
    ".yml"; ".yaml"; ".ini"; ".cfg"; ".conf"; ".log"; ".sql"; ".c"; ".cpp";
    ".h"; ".hpp"; ".cs"; ".php"; ".rb"; ".go"; ".rs"; ".sh"; ".bat"; ".ps1";
    ".r"; ".scala"; ".kt"; ".swift"; ".dart"; ".tsx"; ".jsx"; ".vue";
    ".svelte"; ".ts"; ".coffee"; ".less"; ".scss"; ".sass"; ".styl"; ".pug";
    ".ejs"; ".hbs"; ".mustache" ].

(** The merged document of the two-file example, as section 8 of the
    specification writes it:
    [\nfoo.txt:\n--------\nhi\n] + [\n] + 80 [=] + [\n] +
    [\nbar.txt:\n--------\nbye]. *)
Definition example_output_in_spec : string :=
  (NL +:+ "foo.txt:" +:+ NL +:+ "--------" +:+ NL +:+ "hi" +:+ NL) +:+
  NL +:+ Str.repeat "=" 80 +:+ NL +:+
  (NL +:+ "bar.txt:" +:+ NL +:+ "--------" +:+ NL +:+ "bye").

(** The same without the line break between [hi] and the separator. *)
Definition example_output : string :=
  (NL +:+ "foo.txt:" +:+ NL +:+ "--------" +:+ NL +:+ "hi") +:+
  NL +:+ Str.repeat "=" 80 +:+ NL +:+
  (NL +:+ "bar.txt:" +:+ NL +:+ "--------" +:+ NL +:+ "bye").

(** ** Example inputs on the in-memory platform *)

(** A file system with the two files of the example of section 8. *)
Definition example_world : MemFS.world :=
  MemFS.with_files [("/tmp/foo.txt", "hi"); ("/tmp/bar.txt", "bye")].

(** A file system with an ASCII file, a file holding an undecodable byte
    and an empty file. *)
Definition example_files : MemFS.world :=
  {| MemFS.files := [ ("/tmp/ok.txt", MemFS.bytes_of "plain");
                      ("/tmp/bad.txt", [Byte.x68; Byte.xff; Byte.x69]);
                      ("/tmp/empty.txt", []) ];
     MemFS.tmp_count := 0; MemFS.ui_errors := [] |}.

(** An archive with three eligible entries, out of order, and two entries
    the filter rejects. *)
Definition example_archive : MemFS.upload :=
  Some [ ("b.py", MemFS.bytes_of "x = 1"); ("tool.exe", MemFS.bytes_of "MZ");
         ("a.txt", MemFS.bytes_of "hello"); ("Makefile", MemFS.bytes_of "all:");
         ("c.md", MemFS.bytes_of "# c") ].

(** The world after [mkdtemp], the items of the walk, and the world after
    extraction, for [example_archive] expanded in the empty world. *)
Definition example_scratch : MemFS.world :=
  Eval vm_compute in snd (MemFS.mem_mkdtemp MemFS.empty).

Definition example_items : list walk_item :=
  Eval vm_compute in
    match @extract_and_walk MemFS.platform example_archive "/tmp/tmp"
            example_scratch with
    | (Ret items, _) => items
    | (Raise _, _) => []
    end.

Definition example_extracted : MemFS.world :=
  Eval vm_compute in
    snd (@extract_and_walk MemFS.platform example_archive "/tmp/tmp"
           example_scratch).

(** ** The rest of the platform: writing files and the upload widgets *)

(** [s[:n]]. *)
Fixpoint str_slice_to (n : nat) (s : string) : string :=
  match n, s with
  | O, _ => EmptyString
  | S _, EmptyString => EmptyString
  | S n', String a s' => String a (str_slice_to n' s')
  end.

(** [s.replace(c, '')] for a one-character string [c]. *)
Fixpoint str_remove (c : ascii) (s : string) : string :=
  match s with
  | EmptyString => EmptyString
  | String a s' =>
      if Ascii.eqb a c then str_remove c s' else String a (str_remove c s')
  end.


(** What the remaining functions use beyond [Platform].  An [UploadedDoc]
    is an uploaded file seen as a document to merge, with its [name] and
    its [getbuffer()]; [UploadedFile] of [Platform] is an uploaded file
    handed to [zipfile].  [tempfile.gettempdir()] is fixed once per
    process. *)
Class Session `{Platform} : Type := {
  UploadedDoc : Type;
  doc_name : UploadedDoc -> string;
  doc_getbuffer : UploadedDoc -> list Byte.byte;
  gettempdir : string;
  BinaryOut : Type;
  TextOut : Type;
  (** [open(path, 'wb')] and [f.write(data)] *)
  open_wb : string -> M World BinaryOut;
  write_wb : BinaryOut -> list Byte.byte -> M World unit;
  (** [open(path, 'w', encoding=...)] and [file.write(content)] *)
  open_w : string -> string -> M World TextOut;
  write_w : TextOut -> string -> M World unit;
  (** [os.path.exists(path)], which reports failures as [False], and
      [os.remove(path)] *)
  os_path_exists : string -> World -> bool * World;
  os_remove : string -> M World unit;
  (** [st.subheader(text)], [st.radio(label, options, horizontal=True)] *)
  st_subheader : string -> M World unit;
  st_radio : string -> list string -> M World string;
  (** [st.file_uploader(label, accept_multiple_files=True, type=...)] and
      [st.file_uploader(label, type=...)] *)
  st_file_uploader : string -> list string -> M World (list UploadedDoc);
  st_file_uploader_one : string -> list string -> M World (option UploadedFile);
}.

(** ** [src/src/file_utils.py], writing *)

Module file_utils_rest.
Section with_session.
Context `{Session}.

Definition save_content_to_file (content output_path : string) : M World bool :=
  try_ (file <- open_w output_path "utf-8";;
        write_w file content;;;
        ret true)
    [ except_Exception (fun e =>
        raise (Exn Exception ("Error saving file: " +:+ exn_str e))) ].

End with_session.
End file_utils_rest.

(** ** [src/src/app.py], uploads, preview and clean-up *)

Module app_rest.

(** [list(ext.replace('.', '') for ext in SUPPORTED_EXTENSIONS)]; the
    order of the list is the iteration order of the set. *)
Definition upload_types : list string :=
  List.map (str_remove ".") (elements file_utils.SUPPORTED_EXTENSIONS).

(** [render_preview]: the value handed to [st.text_area]. *)
Definition render_preview (merged_content : string) : string :=
  let preview_length := Nat.min 1000 (String.length merged_content) in
  str_slice_to preview_length merged_content +:+
  (if (preview_length <? String.length merged_content)%nat then "..." else "").

Section with_session.
Context `{Session}.

(** The loop over [uploaded_files] of [render_file_upload]. *)
Fixpoint upload_loop (uploaded_files : list UploadedDoc)
    (file_paths temp_files : list string)
    : M World (list string * list string) :=
  match uploaded_files with
  | [] => ret (file_paths, temp_files)
  | uploaded_file :: rest =>
      let temp_file_path :=
        os_path.join gettempdir (doc_name uploaded_file) in
      f <- open_wb temp_file_path;;
      write_wb f (doc_getbuffer uploaded_file);;;
      let file_paths := file_paths ++ [temp_file_path] in
      let temp_files := temp_files ++ [temp_file_path] in
      upload_loop rest file_paths temp_files
  end.

Definition render_file_upload : M World (list string * list string) :=
  st_subheader "Upload Files";;;
  upload_method <-
    st_radio "Choose upload method:" ["Individual Files"; "ZIP Archive"];;
  let file_paths := [] in
  let temp_files := [] in
  if String.eqb upload_method "Individual Files" then
    uploaded_files <- st_file_uploader "Choose files to merge" upload_types;;
    match uploaded_files with
    | [] => ret (file_paths, temp_files)
    | _ => upload_loop uploaded_files file_paths temp_files
    end
  else
    zip_file <-
      st_file_uploader_one "Upload ZIP archive containing text files" ["zip"];;
    match zip_file with
    | Some zip_file =>
        file_paths <-
          try_ (zip_utils.extract_zip_files zip_file)
            [ except_Exception (fun e => st_error (exn_str e);;; ret file_paths) ];;
        ret (file_paths, temp_files)
    | None => ret (file_paths, temp_files)
    end.


End with_session.
End app_rest.

(** ** [src/file_merger.py], saving and the upload types of [main] *)

Module file_merger_rest.

(** The [type=[...]] list of the uploader of individual files in [main]. *)
Definition upload_types : list string :=
  [ "txt"; "xml"; "java"; "py"; "js"; "html"; "css"; "json";
    "md"; "yml"; "yaml"; "ini"; "cfg"; "conf"; "log"; "sql";
    "c"; "cpp"; "h"; "hpp"; "cs"; "php"; "rb"; "go"; "rs";
    "sh"; "bat"; "ps1"; "r"; "scala"; "kt"; "swift"; "dart";
    "tsx"; "jsx"; "vue"; "svelte"; "ts"; "coffee"; "less";
    "scss"; "sass"; "styl"; "pug"; "ejs"; "hbs"; "mustache" ].

(** The preview of [main]: the value handed to [st.text_area]. *)
Definition main_preview (merged_content : string) : string :=
  let preview_length := Nat.min 1000 (String.length merged_content) in
  str_slice_to preview_length merged_content +:+
  (if (preview_length <? String.length merged_content)%nat then "..." else "").

Section with_session.
Context `{Session}.

Definition save_merged_file (content output_filename : string)
    : M World (option string) :=
  let output_path := os_path.join gettempdir output_filename in
  try_ (file <- open_w output_path "utf-8";;
        write_w file content;;;
        ret (Some output_path))
    [ except_Exception (fun e =>
        st_error ("Error saving file: " +:+ exn_str e);;;
        ret None) ].

End with_session.
End file_merger_rest.

(** ** The in-memory platform, with writing and scripted widgets *)

Module MemSession.

(** What the user does on the page: the upload method chosen, the
    documents uploaded and the archive uploaded. *)
Record script : Type := Script {
  choice : string;
  docs : list (string * list Byte.byte);
  archive : option MemFS.upload;
}.

Definition put (path : string) (data : list Byte.byte) (w : MemFS.world)
    : MemFS.world :=
  {| MemFS.files :=
       (path, data)
       :: List.filter (fun e => negb (String.eqb (fst e) path)) (MemFS.files w);
     MemFS.tmp_count := MemFS.tmp_count w;
     MemFS.ui_errors := MemFS.ui_errors w |}.

(** A path names a file that can be written unless it is empty or ends
    with a slash. *)
Definition writable (path : string) : bool :=
  negb (String.eqb path "" || Str.endswith "/" path).

Definition mem_open_out (path : string) : M MemFS.world string :=
  fun w =>
    if writable path then (Ret path, put path [] w)
    else (Raise (Exn OSError ("[Errno 21] Is a directory: '" +:+ path +:+ "'")),
          w).

Definition mem_write_wb (path : string) (data : list Byte.byte)
    : M MemFS.world unit :=
  fun w => (Ret tt, put path data w).

Definition mem_exists (path : string) (w : MemFS.world) : bool * MemFS.world :=
  (match MemFS.lookup_file path (MemFS.files w) with
   | Some _ => true
   | None => false
   end, w).

Definition mem_remove (path : string) : M MemFS.world unit :=
  fun w =>
    match MemFS.lookup_file path (MemFS.files w) with
    | Some _ =>
        (Ret tt,
         {| MemFS.files :=
              List.filter (fun e => negb (String.eqb (fst e) path))
                          (MemFS.files w);
            MemFS.tmp_count := MemFS.tmp_count w;
            MemFS.ui_errors := MemFS.ui_errors w |})
    | None => (Raise (MemFS.no_such_file path), w)
    end.

Definition session (s : script) : @Session MemFS.platform := {|
  UploadedDoc := string * list Byte.byte;
  doc_name := fst;
  doc_getbuffer := snd;
  gettempdir := "/tmp";
  BinaryOut := string;
  TextOut := string;
  open_wb := mem_open_out : string -> M (@World MemFS.platform) string;
  write_wb := mem_write_wb;
  open_w := fun path _ => mem_open_out path;
  write_w := fun path content => mem_write_wb path (MemFS.bytes_of content);
  os_path_exists := mem_exists;
  os_remove := mem_remove;
  st_subheader := fun _ => ret tt;
  st_radio := fun _ _ => ret (choice s);
  st_file_uploader := fun _ _ => ret (docs s);
  st_file_uploader_one := fun _ _ => ret (archive s);
|}.

End MemSession.

(** A session in which two documents with the same name are uploaded. *)
Definition example_same_name : MemSession.script :=
  {| MemSession.choice := "Individual Files";
     MemSession.docs := [ ("notes.txt", MemFS.bytes_of "first");
                          ("notes.txt", MemFS.bytes_of "second") ];
     MemSession.archive := None |}.

(** A session in which [example_archive] is uploaded, and one in which the
    uploaded file is not an archive. *)
Definition example_zip : MemSession.script :=
  {| MemSession.choice := "ZIP Archive";
     MemSession.docs := [];
     MemSession.archive := Some example_archive |}.

Definition example_bad_zip : MemSession.script :=
  {| MemSession.choice := "ZIP Archive";
     MemSession.docs := [];
     MemSession.archive := Some None |}.


(** ** Vocabulary of the statements about the session *)

Section session_vocabulary.
Context `{Session}.

(** Writing a text file: opening it for writing as utf-8 and writing the
    whole content. *)
Definition write_text (output_path content : string) : M World unit :=
  file <- open_w output_path "utf-8";; write_w file content.

(** The head of the upload panel: its title and the choice of the upload
    method. *)
Definition choose_upload_method : M World string :=
  st_subheader "Upload Files";;;
  st_radio "Choose upload method:" ["Individual Files"; "ZIP Archive"].

(** The path under which an uploaded document is stored. *)
Definition temp_path (uploaded_file : UploadedDoc) : string :=
  os_path.join gettempdir (doc_name uploaded_file).

End session_vocabulary.

(** The world after the two documents of [example_same_name] are stored. *)
Definition example_uploaded : MemFS.world :=
  Eval vm_compute in
    snd (@app_rest.render_file_upload MemFS.platform
           (MemSession.session example_same_name) MemFS.empty).

(** ** Vocabulary of the statements about merging *)

(** Reading the files of a list one after the other with the File Reader:
    the contents, in the order of the list. *)
Fixpoint read_all `{Platform} (file_paths : list string) : M World (list string) :=
  match file_paths with
  | [] => ret []
  | file_path :: rest =>
      r <- file_utils.read_file_content file_path;;
      contents <- read_all rest;;
      ret (fst r :: contents)
  end.

(** The text [merge_files] writes for one file whose content is
    [content], the list ending with the path [last]. *)
Definition segment_text (last separator : string) (file_path content : string)
    : string :=
  header_of file_path +:+ content +:+
  (if negb (String.eqb file_path last) then separator else "").

(** ** Running monadic code *)

Ltac unfold_io :=
  unfold try_, bind, ret, raise, index_last in *; cbn [dispatch catches handler
    except_ except_all except_Exception] in *.

(** Case analysis on the next call of the platform in the goal. *)
Ltac step_io :=
  match goal with
  | |- context [match ?m ?w with (_, _) => _ end] =>
      let r := fresh "r" in let w' := fresh "w" in
      let a := fresh "a" in let e := fresh "e" in
      destruct (m w) as [[a | e] w'] eqn:?; cbn [fst snd]
  end.

(** ** The duplicated modules agree *)

Lemma text_extensions_same :
  file_merger.text_extensions = file_utils.SUPPORTED_EXTENSIONS.
Proof. reflexivity. Qed.

Lemma is_text_file_same file_path :
  file_merger.is_text_file file_path = file_utils.is_text_file file_path.
Proof. reflexivity. Qed.

Section agreement.
Context `{Platform}.

Lemma detect_encoding_same :
  file_merger.detect_encoding = file_utils.detect_encoding.
Proof. reflexivity. Qed.

Lemma read_file_content_same :
  file_merger.read_file_content = file_utils.read_file_content.
Proof. reflexivity. Qed.

Lemma merge_loop_same :
  file_merger.merge_loop = app.merge_loop.
Proof. reflexivity. Qed.

Lemma merge_pieces_same :
  file_merger.merge_pieces = app.merge_pieces.
Proof. reflexivity. Qed.

Lemma merge_files_same :
  file_merger.merge_files = app.merge_files.
Proof. reflexivity. Qed.

End agreement.

(** ** Encoding Detector *)

Section encoding_detector.
Context `{Platform}.

Lemma detect_encoding_cases file_path w :
  file_utils.detect_encoding file_path w =
    match read_bytes file_path w with
    | (Raise _, w1) => (Ret "utf-8", w1)
    | (Ret raw_data, w1) =>
        match chardet_detect raw_data w1 with
        | (Raise _, w2) => (Ret "utf-8", w2)
        | (Ret None, w2) => (Ret "utf-8", w2)
        | (Ret (Some encoding), w2) =>
            (Ret (if String.eqb encoding "" then "utf-8" else encoding), w2)
        end
    end.
Proof.
  unfold file_utils.detect_encoding, read_bytes. unfold_io.
  destruct (open_rb file_path w) as [[file | e] w0]; [|reflexivity].
  destruct (read_rb file w0) as [[raw | e] w1]; [|reflexivity].
  destruct (chardet_detect raw w1) as [[[enc |] | e] w2]; reflexivity.
Qed.

Lemma detect_encoding_returns file_path w :
  exists encoding w',
    file_utils.detect_encoding file_path w = (Ret encoding, w').
Proof.
  rewrite detect_encoding_cases.
  destruct (read_bytes file_path w) as [[raw | e] w1]; [|eauto].
  destruct (chardet_detect raw w1) as [[[enc |] | e] w2]; eauto.
Qed.

End encoding_detector.

(** C9.  The Encoding Detector is total: for every path and every state of
    the world [detect_encoding] returns an encoding name and raises
    nothing.  When the read of the file fails, when [chardet] itself fails,
    or when [chardet] reports no encoding ([None] or the empty name), the
    name is ['utf-8']; otherwise it is the name [chardet] reported.  The
    copy in [file_merger.py] behaves the same. *)
Theorem detect_encoding_total `{Platform} (file_path : string) (w : World) :
  (exists encoding w',
      file_utils.detect_encoding file_path w = (Ret encoding, w')) /\
  file_utils.detect_encoding file_path w =
    match read_bytes file_path w with
    | (Raise _, w1) => (Ret "utf-8", w1)
    | (Ret raw_data, w1) =>
        match chardet_detect raw_data w1 with
        | (Raise _, w2) => (Ret "utf-8", w2)
        | (Ret None, w2) => (Ret "utf-8", w2)
        | (Ret (Some encoding), w2) =>
            (Ret (if String.eqb encoding "" then "utf-8" else encoding), w2)
        end
    end /\
  file_merger.detect_encoding file_path w =
    file_utils.detect_encoding file_path w.
Proof.
  split; [apply detect_encoding_returns|].
  split; [apply detect_encoding_cases|reflexivity].
Qed.

(** ** File Reader *)

Section file_reader.
Context `{Platform}.

Lemma read_file_content_cases file_path w encoding w1 :
  file_utils.detect_encoding file_path w = (Ret encoding, w1) ->
  file_utils.read_file_content file_path w =
    match read_text file_path encoding Strict w1 with
    | (Ret content, w2) => (Ret (content, true), w2)
    | (Raise e, w2) =>
        if bool_decide (exn_class e = UnicodeDecodeError) then
          match read_text file_path "utf-8" Ignore w2 with
          | (Ret content, w3) => (Ret (content, true), w3)
          | (Raise _, w3) =>
              (Ret ("[Error: Could not read file " +:+ file_path +:+ "]",
                    false), w3)
          end
        else
          (Ret ("[Error reading " +:+ file_path +:+ ": " +:+ exn_str e
                +:+ "]", false), w2)
    end.
Proof.
  intros Hdet. unfold file_utils.read_file_content, read_text.
  unfold_io. rewrite Hdet.
  destruct (open_r file_path encoding Strict w1) as [[file | e] w2].
  - destruct (read_r file w2) as [[content | e] w3]; [reflexivity|].
    destruct (bool_decide (exn_class e = UnicodeDecodeError)); [|reflexivity].
    destruct (open_r file_path "utf-8" Ignore w3) as [[file' | e'] w4];
      [|reflexivity].
    destruct (read_r file' w4) as [[content' | e'] w5]; reflexivity.
  - destruct (bool_decide (exn_class e = UnicodeDecodeError)); [|reflexivity].
    destruct (open_r file_path "utf-8" Ignore w2) as [[file' | e'] w4];
      [|reflexivity].
    destruct (read_r file' w4) as [[content' | e'] w5]; reflexivity.
Qed.

Lemma read_file_content_returns file_path w :
  exists content ok w',
    file_utils.read_file_content file_path w = (Ret (content, ok), w').
Proof.
  destruct (detect_encoding_returns file_path w) as (encoding & w1 & Hdet).
  rewrite (read_file_content_cases _ _ _ _ Hdet).
  destruct (read_text file_path encoding Strict w1) as [[content | e] w2];
    [eauto|].
  destruct (bool_decide (exn_class e = UnicodeDecodeError)); [|eauto].
  destruct (read_text file_path "utf-8" Ignore w2) as [[content | e'] w3];
    eauto.
Qed.

End file_reader.

(** C5.  The File Reader never raises: for every path and every state of
    the world [read_file_content] returns a pair [(content, ok)].  With the
    encoding given by the Encoding Detector: if the strict read returns, the
    pair is the decoded content and [true]; if it raises a
    [UnicodeDecodeError], the file is read again as utf-8 with invalid
    sequences ignored, which gives the decoded content and [true], or, if
    this second read raises, the sentinel
    ["[Error: Could not read file <path>]"] and [false]; if the first read
    raises any other error, the pair is the sentinel
    ["[Error reading <path>: <error>]"] and [false].  The copy in
    [file_merger.py] behaves the same. *)
Theorem read_file_content_never_raises `{Platform}
    (file_path : string) (w : World) :
  (exists content ok w',
      file_utils.read_file_content file_path w = (Ret (content, ok), w')) /\
  (exists encoding w1,
      file_utils.detect_encoding file_path w = (Ret encoding, w1) /\
      file_utils.read_file_content file_path w =
        match read_text file_path encoding Strict w1 with
        | (Ret content, w2) => (Ret (content, true), w2)
        | (Raise e, w2) =>
            if bool_decide (exn_class e = UnicodeDecodeError) then
              match read_text file_path "utf-8" Ignore w2 with
              | (Ret content, w3) => (Ret (content, true), w3)
              | (Raise _, w3) =>
                  (Ret ("[Error: Could not read file " +:+ file_path +:+ "]",
                        false), w3)
              end
            else
              (Ret ("[Error reading " +:+ file_path +:+ ": " +:+ exn_str e
                    +:+ "]", false), w2)
        end) /\
  file_merger.read_file_content file_path w =
    file_utils.read_file_content file_path w.
Proof.
  split; [apply read_file_content_returns|].
  split; [|reflexivity].
  destruct (detect_encoding_returns file_path w) as (encoding & w1 & Hdet).
  exists encoding, w1. split; [exact Hdet|].
  apply read_file_content_cases, Hdet.
Qed.

(** ** Merge Engine *)

Lemma last_map_Some (l : list string) (x : string) :
  List.last (List.map Some (l ++ [x])) None = Some x.
Proof.
  induction l as [|y l IH]; [reflexivity|].
  change (List.last (Some y :: List.map Some (l ++ [x])) None = Some x).
  destruct (l ++ [x]) eqn:E; [destruct l; discriminate|].
  exact IH.
Qed.

Lemma index_last_snoc {W} (l : list string) (x : string) (w : W) :
  index_last (l ++ [x]) w = (Ret x, w).
Proof. unfold index_last. rewrite last_map_Some. reflexivity. Qed.

Lemma headers_app l1 l2 : headers (l1 ++ l2) = headers l1 ++ headers l2.
Proof. apply omap_app. Qed.

Lemma separators_app l1 l2 :
  separators (l1 ++ l2) = separators l1 ++ separators l2.
Proof. apply omap_app. Qed.

Lemma headers_segments last separator (paths contents : list string) :
  length contents = length paths ->
  headers (concat (zip_with (segment last separator) paths contents))
  = List.map header_of paths.
Proof.
  revert contents. induction paths as [|p paths IH]; intros [|c contents] Hlen;
    try discriminate; [reflexivity|].
  cbn [zip_with concat List.map]. rewrite headers_app, IH by (simpl in Hlen; lia).
  unfold segment. destruct (negb (String.eqb p last)); reflexivity.
Qed.

Lemma separators_segments last separator (paths contents : list string) :
  length contents = length paths ->
  separators (concat (zip_with (segment last separator) paths contents))
  = List.map (fun _ => separator)
      (List.filter (fun p => negb (String.eqb p last)) paths).
Proof.
  revert contents. induction paths as [|p paths IH]; intros [|c contents] Hlen;
    try discriminate; [reflexivity|].
  cbn [zip_with concat List.filter]. rewrite separators_app, IH by (simpl in Hlen; lia).
  unfold segment. destruct (negb (String.eqb p last)); reflexivity.
Qed.

Section merge_engine.
Context `{Platform}.

(** The loop appends one [segment] per remaining path, in order. *)
Lemma merge_loop_segments init last separator :
  forall todo merged_content w,
  exists contents w',
    length contents = length todo /\
    app.merge_loop (init ++ [last]) separator todo merged_content w =
      (Ret (merged_content ++
            concat (zip_with (segment last separator) todo contents)), w').
Proof.
  induction todo as [|file_path todo IH]; intros merged_content w.
  - exists [], w. split; [reflexivity|]. cbn. unfold ret.
    rewrite app_nil_r. reflexivity.
  - destruct (read_file_content_returns file_path w) as (content & ok & w1 & Hr).
    set (acc := if negb (String.eqb file_path last)
                then ((merged_content ++ [Header (header_of file_path)])
                        ++ [Content content]) ++ [Separator separator]
                else (merged_content ++ [Header (header_of file_path)])
                        ++ [Content content]).
    destruct (IH acc w1) as (contents & w' & Hlen & Hloop).
    exists (content :: contents), w'. split; [simpl; lia|].
    cbn [app.merge_loop]. unfold bind at 1. rewrite Hr.
    unfold bind at 1. rewrite index_last_snoc.
    transitivity (app.merge_loop (init ++ [last]) separator todo acc w1);
      [reflexivity|].
    rewrite Hloop. f_equal. f_equal.
    cbn [zip_with concat]. unfold segment. subst acc.
    destruct (negb (String.eqb file_path last));
      rewrite <- ?app_assoc; reflexivity.
Qed.

Lemma merge_pieces_segments init last separator w :
  exists contents w',
    length contents = length (init ++ [last]) /\
    app.merge_pieces (init ++ [last]) separator w =
      (Ret (concat (zip_with (segment last separator) (init ++ [last])
                      contents)), w').
Proof.
  unfold app.merge_pieces.
  destruct (merge_loop_segments init last separator (init ++ [last]) [] w)
    as (contents & w' & Hlen & Hloop).
  exists contents, w'. split; [exact Hlen|]. exact Hloop.
Qed.

(** Every path gets its header, in the order of the list; a separator is
    appended after each path that differs from the last path of the list. *)
Lemma merge_pieces_headers_separators init last separator w :
  exists pieces w',
    app.merge_pieces (init ++ [last]) separator w = (Ret pieces, w') /\
    headers pieces = List.map header_of (init ++ [last]) /\
    separators pieces =
      List.map (fun _ => separator)
        (List.filter (fun p => negb (String.eqb p last)) init).
Proof.
  destruct (merge_pieces_segments init last separator w)
    as (contents & w' & Hlen & Hrun).
  eexists _, w'. split; [exact Hrun|]. split.
  - apply headers_segments, Hlen.
  - rewrite separators_segments by exact Hlen.
    rewrite List.filter_app. cbn [List.filter].
    rewrite String.eqb_refl. cbn [negb]. rewrite app_nil_r. reflexivity.
Qed.

(** When the last path does not occur earlier in the list, there are
    exactly [N - 1] separators. *)
Lemma merge_pieces_last_path_unique init last separator w :
  ~ In last init ->
  exists pieces w',
    app.merge_pieces (init ++ [last]) separator w = (Ret pieces, w') /\
    length (headers pieces) = length (init ++ [last]) /\
    length (separators pieces) = (length (init ++ [last]) - 1)%nat.
Proof.
  intros Hnotin.
  destruct (merge_pieces_headers_separators init last separator w)
    as (pieces & w' & Hrun & Hh & Hs).
  exists pieces, w'. split; [exact Hrun|]. split.
  - rewrite Hh, length_map. reflexivity.
  - rewrite Hs, length_map, length_app. cbn [length].
    replace (List.filter (fun p => negb (String.eqb p last)) init) with init;
      [lia|].
    clear -Hnotin. induction init as [|p init IH]; [reflexivity|].
    cbn [List.filter].
    destruct (String.eqb_spec p last) as [->|Hne].
    + exfalso. apply Hnotin. left. reflexivity.
    + cbn [negb]. f_equal. apply IH. intros Hin. apply Hnotin. right. exact Hin.
Qed.

End merge_engine.

(** C10.  On the empty list of paths [merge_files] returns the empty
    string, whatever the separator, and touches nothing: no file is read
    and the state of the world is unchanged.  This holds for the method of
    [app.py] and for the function of [file_merger.py]. *)
Theorem merge_files_empty `{Platform} (separator : string) (w : World) :
  app.merge_files [] separator w = (Ret "", w) /\
  file_merger.merge_files [] separator w = (Ret "", w).
Proof. split; reflexivity. Qed.

(** C1.  The list [["/tmp/a.txt"; "/tmp/a.txt"]] has length 2, yet
    [merge_files] appends both headers and no separator at all: the test
    [file_path != file_paths[-1]] compares paths, not positions, so the
    first file, equal to the last one, gets no separator after it.  The
    merged text is the two headers and contents with nothing in between.
    The same holds for the method of [app.py] and the function of
    [file_merger.py]. *)
Theorem merge_files_repeated_path `{Platform} (separator : string) (w : World) :
  exists content1 content2 w',
    let pieces := [ Header (header_of "/tmp/a.txt"); Content content1;
                    Header (header_of "/tmp/a.txt"); Content content2 ] in
    app.merge_pieces ["/tmp/a.txt"; "/tmp/a.txt"] separator w
      = (Ret pieces, w') /\
    file_merger.merge_pieces ["/tmp/a.txt"; "/tmp/a.txt"] separator w
      = (Ret pieces, w') /\
    length (headers pieces) = 2%nat /\
    length (separators pieces) = 0%nat /\
    app.merge_files ["/tmp/a.txt"; "/tmp/a.txt"] separator w
      = (Ret (header_of "/tmp/a.txt" +:+ content1 +:+
              header_of "/tmp/a.txt" +:+ content2), w').
Proof.
  destruct (merge_pieces_segments ["/tmp/a.txt"] "/tmp/a.txt" separator w)
    as (contents & w' & Hlen & Hrun).
  destruct contents as [|content1 [|content2 [|]]]; try discriminate Hlen.
  exists content1, content2, w'. cbn zeta.
  change (["/tmp/a.txt"] ++ ["/tmp/a.txt"]) with ["/tmp/a.txt"; "/tmp/a.txt"]
    in Hrun.
  assert (Hpieces :
    app.merge_pieces ["/tmp/a.txt"; "/tmp/a.txt"] separator w
    = (Ret [ Header (header_of "/tmp/a.txt"); Content content1;
             Header (header_of "/tmp/a.txt"); Content content2 ], w')).
  { rewrite Hrun. reflexivity. }
  split; [exact Hpieces|]. split; [exact Hpieces|].
  split; [reflexivity|]. split; [reflexivity|].
  unfold app.merge_files, bind. rewrite Hpieces. reflexivity.
Qed.

Lemma basename_differ (foo bar : string) :
  os_path.basename foo = "foo.txt" ->
  os_path.basename bar = "bar.txt" ->
  String.eqb foo bar = false.
Proof.
  intros Hfoo Hbar. apply String.eqb_neq. intros ->.
  rewrite Hfoo in Hbar. discriminate.
Qed.

(** C2, as amended.  Let [foo] and [bar] be two paths with base names
    [foo.txt] and [bar.txt] whose contents the File Reader gives as ["hi"]
    and ["bye"].  Merging [[foo; bar]] with the default separator returns
    exactly [\nfoo.txt:\n--------\nhi] + [\n] + 80 [=] + [\n] +
    [\nbar.txt:\n--------\nbye]: the content ["hi"] is followed at once by
    the separator, with no line break of its own.  This text is the header
    of [foo] (a line break, the base name, a colon, a line break, as many
    dashes as the base name is long plus one, a line break), the content of
    [foo], the separator, the header of [bar] and the content of [bar]. *)
Theorem merge_two_files_example `{Platform}
    (foo bar : string) (ok1 ok2 : bool) (w w1 w2 : World) :
  os_path.basename foo = "foo.txt" ->
  os_path.basename bar = "bar.txt" ->
  file_utils.read_file_content foo w = (Ret ("hi", ok1), w1) ->
  file_utils.read_file_content bar w1 = (Ret ("bye", ok2), w2) ->
  app.merge_files [foo; bar] app.default_separator w = (Ret example_output, w2) /\
  file_merger.merge_files [foo; bar] file_merger.default_separator w
    = (Ret example_output, w2) /\
  example_output =
    header_of foo +:+ "hi" +:+ app.default_separator +:+ header_of bar +:+ "bye".
Proof.
  intros Hfoo Hbar Hr1 Hr2.
  pose proof (basename_differ foo bar Hfoo Hbar) as Hne.
  assert (Happ : app.merge_files [foo; bar] app.default_separator w
                 = (Ret example_output, w2)).
  { unfold app.merge_files, app.merge_pieces. cbn [app.merge_loop].
    unfold bind at 1. unfold bind at 1. rewrite Hr1.
    unfold bind at 1. unfold index_last at 1. cbn [List.map List.last].
    unfold ret at 1. rewrite Hne. cbn [negb].
    unfold bind at 1. rewrite Hr2.
    unfold bind at 1. unfold index_last at 1. cbn [List.map List.last].
    unfold ret at 1. rewrite String.eqb_refl. cbn [negb].
    unfold ret. rewrite Hfoo, Hbar. reflexivity. }
  split; [exact Happ|]. split; [exact Happ|].
  unfold header_of. rewrite Hfoo, Hbar. reflexivity.
Qed.

Lemma merge_two_files_example_witness :
  @app.merge_files MemFS.platform ["/tmp/foo.txt"; "/tmp/bar.txt"]
    app.default_separator example_world = (Ret example_output, example_world) /\
  @file_merger.merge_files MemFS.platform ["/tmp/foo.txt"; "/tmp/bar.txt"]
    file_merger.default_separator example_world
    = (Ret example_output, example_world) /\
  example_output =
    header_of "/tmp/foo.txt" +:+ "hi" +:+ app.default_separator +:+
    header_of "/tmp/bar.txt" +:+ "bye".
Proof.
  apply (@merge_two_files_example MemFS.platform
           "/tmp/foo.txt" "/tmp/bar.txt" true true
           example_world example_world example_world); reflexivity.
Defined.

(** C2 as the specification writes it fails: on a file system holding
    [foo.txt] with content ["hi"] and [bar.txt] with content ["bye"], the
    merged text is not the text of section 8, which has one line break
    more between [hi] and the row of [=]. *)
Lemma merge_two_files_not_as_in_spec :
  fst (@app.merge_files MemFS.platform ["/tmp/foo.txt"; "/tmp/bar.txt"]
         app.default_separator example_world)
  <> Ret example_output_in_spec /\
  fst (@file_merger.merge_files MemFS.platform ["/tmp/foo.txt"; "/tmp/bar.txt"]
         file_merger.default_separator example_world)
  <> Ret example_output_in_spec.
Proof.
  split; intros Heq; vm_compute in Heq; discriminate Heq.
Qed.

(** ** The order of [sorted] *)

Lemma ascii_compare_Lt_trans (a b c : ascii) :
  Ascii.compare a b = Lt -> Ascii.compare b c = Lt -> Ascii.compare a c = Lt.
Proof.
  unfold Ascii.compare. rewrite !N.compare_lt_iff. lia.
Qed.

Lemma string_compare_trans (s1 : string) :
  forall s2 s3,
    String.compare s1 s2 <> Gt -> String.compare s2 s3 <> Gt ->
    String.compare s1 s3 <> Gt.
Proof.
  induction s1 as [|a s1 IH]; intros [|b s2] [|c s3]; cbn [String.compare];
    try congruence.
  destruct (Ascii.compare a b) eqn:Hab; try congruence;
    destruct (Ascii.compare b c) eqn:Hbc; try congruence.
  - apply Ascii.compare_eq_iff in Hab. subst. rewrite Hbc. apply IH.
  - apply Ascii.compare_eq_iff in Hab. subst. rewrite Hbc. congruence.
  - apply Ascii.compare_eq_iff in Hbc. subst. rewrite Hab. congruence.
  - rewrite (ascii_compare_Lt_trans _ _ _ Hab Hbc). congruence.
Qed.

Lemma str_le_compare (a b : string) : str_le a b <-> String.compare a b <> Gt.
Proof.
  unfold str_le, String.leb. destruct (String.compare a b); split; congruence.
Qed.

Global Instance str_le_trans : Transitive str_le.
Proof.
  intros a b c. rewrite !str_le_compare. apply string_compare_trans.
Qed.

Global Instance str_le_total : Total str_le.
Proof. intros a b. apply String.leb_total. Qed.

Global Instance str_le_antisym : AntiSymm (=) str_le.
Proof. intros a b. apply String.leb_antisym. Qed.

Lemma sorted_Sorted (l : list string) : Sorted str_le (sorted l).
Proof. apply Sorted_merge_sort, _. Qed.

Lemma sorted_Permutation (l : list string) : sorted l ≡ₚ l.
Proof. apply merge_sort_Permutation. Qed.

(** The result of [sorted] depends only on the elements, not on their
    order in the argument. *)
Lemma sorted_order_independent (l1 l2 : list string) :
  l1 ≡ₚ l2 -> sorted l1 = sorted l2.
Proof.
  intros Hperm. apply (Sorted_unique str_le); try apply sorted_Sorted.
  rewrite !sorted_Permutation. exact Hperm.
Qed.

Lemma filter_bool_Permutation {A} (f : A -> bool) (l1 l2 : list A) :
  l1 ≡ₚ l2 -> List.filter f l1 ≡ₚ List.filter f l2.
Proof.
  induction 1 as [|x l1 l2 _ IH|x y l|l1 l2 l3 _ IH1 _ IH2]; cbn [List.filter].
  - reflexivity.
  - destruct (f x); [constructor|]; exact IH.
  - destruct (f x), (f y); try reflexivity. constructor.
  - etransitivity; eassumption.
Qed.

(** ** Archive Expander *)

Lemma walk_files_loop (is_text_file : string -> bool) (root : string)
    (files file_paths : list string) :
  foldl (fun file_paths file =>
           let file_path := os_path.join root file in
           if is_text_file file_path then file_paths ++ [file_path]
           else file_paths) file_paths files
  = file_paths ++ List.filter is_text_file (List.map (os_path.join root) files).
Proof.
  revert file_paths. induction files as [|file files IH]; intros file_paths.
  - cbn. rewrite app_nil_r. reflexivity.
  - cbn [foldl List.map List.filter]. rewrite IH. cbn zeta.
    destruct (is_text_file (os_path.join root file)).
    + rewrite <- app_assoc. reflexivity.
    + reflexivity.
Qed.

(** The two loops collect, in the order of the walk, the walked files that
    pass the filter. *)
Lemma walk_loop_filter (is_text_file : string -> bool)
    (items : list walk_item) (file_paths : list string) :
  walk_loop is_text_file items file_paths
  = file_paths ++ List.filter is_text_file (walked_files items).
Proof.
  unfold walk_loop, walked_files. revert file_paths.
  induction items as [|[[root dirs] files] items IH]; intros file_paths.
  - cbn. rewrite app_nil_r. reflexivity.
  - cbn [foldl List.map List.concat]. rewrite IH, walk_files_loop.
    rewrite List.filter_app, <- app_assoc. reflexivity.
Qed.

Section archive_expander.
Context `{Platform}.

Lemma extract_zip_files_cases zip_file w :
  zip_utils.extract_zip_files zip_file w =
    match mkdtemp w with
    | (Raise e, w1) => (Raise e, w1)
    | (Ret temp_dir, w1) =>
        match extract_and_walk zip_file temp_dir w1 with
        | (Ret items, w2) =>
            (Ret (sorted (List.filter file_utils.is_text_file
                            (walked_files items))), w2)
        | (Raise e, w2) =>
            (Raise (Exn Exception
                      ("Error extracting zip file: " +:+ exn_str e)), w2)
        end
    end.
Proof.
  unfold zip_utils.extract_zip_files, extract_and_walk. unfold_io.
  destruct (mkdtemp w) as [[temp_dir | e] w1]; [|reflexivity].
  destruct (ZipFile zip_file w1) as [[zip_ref | e] w2]; [|reflexivity].
  destruct (extractall zip_ref temp_dir w2) as [[[] | e] w3]; [|reflexivity].
  destruct (os_walk temp_dir w3) as [[items | e] w4]; [|reflexivity].
  rewrite walk_loop_filter. reflexivity.
Qed.

Lemma legacy_extract_zip_files_cases zip_file w :
  file_merger.extract_zip_files zip_file w =
    match mkdtemp w with
    | (Raise e, w1) => (Raise e, w1)
    | (Ret temp_dir, w1) =>
        match extract_and_walk zip_file temp_dir w1 with
        | (Ret items, w2) =>
            (Ret (sorted (List.filter file_utils.is_text_file
                            (walked_files items))), w2)
        | (Raise e, w2) =>
            match st_error ("Error extracting zip file: " +:+ exn_str e) w2
            with
            | (Ret _, w3) => (Ret [], w3)
            | (Raise e', w3) => (Raise e', w3)
            end
        end
    end.
Proof.
  unfold file_merger.extract_zip_files, extract_and_walk. unfold_io.
  destruct (mkdtemp w) as [[temp_dir | e] w1]; [|reflexivity].
  destruct (ZipFile zip_file w1) as [[zip_ref | e] w2]; [|reflexivity].
  destruct (extractall zip_ref temp_dir w2) as [[[] | e] w3]; [|reflexivity].
  destruct (os_walk temp_dir w3) as [[items | e] w4]; [|reflexivity].
  rewrite walk_loop_filter. reflexivity.
Qed.

End archive_expander.

(** C4.  Whenever the scratch directory is created and extraction and the
    walk succeed, [extract_zip_files] returns a list that is sorted in
    ascending order of the full paths and holds exactly the walked files
    that pass the Type Filter, each as often as the walk lists it.  The
    list does not depend on the order of the walk: any walk listing the
    same files in another order gives the same result. *)
Theorem extract_zip_files_sorted `{Platform} (zip_file : UploadedFile)
    (w : World) (temp_dir : string) (w1 : World) (items : list walk_item)
    (w2 : World) :
  mkdtemp w = (Ret temp_dir, w1) ->
  extract_and_walk zip_file temp_dir w1 = (Ret items, w2) ->
  exists file_paths,
    zip_utils.extract_zip_files zip_file w = (Ret file_paths, w2) /\
    Sorted str_le file_paths /\
    file_paths ≡ₚ List.filter file_utils.is_text_file (walked_files items) /\
    (forall items',
        walked_files items' ≡ₚ walked_files items ->
        sorted (walk_loop file_utils.is_text_file items' []) = file_paths).
Proof.
  intros Htmp Hwalk. eexists. split.
  - rewrite extract_zip_files_cases, Htmp, Hwalk. reflexivity.
  - split; [apply sorted_Sorted|]. split; [apply sorted_Permutation|].
    intros items' Hperm. rewrite walk_loop_filter. cbn [app].
    apply sorted_order_independent, filter_bool_Permutation, Hperm.
Qed.

Lemma extract_zip_files_sorted_witness :
  exists file_paths,
    @zip_utils.extract_zip_files MemFS.platform example_archive MemFS.empty
      = (Ret file_paths, example_extracted) /\
    Sorted str_le file_paths /\
    file_paths ≡ₚ
      List.filter file_utils.is_text_file (walked_files example_items) /\
    (forall items',
        walked_files items' ≡ₚ walked_files example_items ->
        sorted (walk_loop file_utils.is_text_file items' []) = file_paths).
Proof.
  apply (@extract_zip_files_sorted MemFS.platform example_archive MemFS.empty
           "/tmp/tmp" example_scratch example_items example_extracted);
    reflexivity.
Defined.

(** The example of section 8: the entries [b.py], [a.txt], [c.md] come
    back as [a.txt], [b.py], [c.md]; [tool.exe] and [Makefile] are left out. *)
Example extract_zip_files_example :
  fst (@zip_utils.extract_zip_files MemFS.platform example_archive MemFS.empty)
  = Ret ["/tmp/tmp/a.txt"; "/tmp/tmp/b.py"; "/tmp/tmp/c.md"].
Proof. reflexivity. Qed.

(** C8.  When extraction fails, that is when opening the archive,
    unpacking it or walking the extracted tree raises an error [e],
    [extract_zip_files] of [zip_utils.py] raises the single exception
    ["Error extracting zip file: <e>"] and returns no list.  Conversely a
    list is returned only when the scratch directory was created and
    extraction and the walk succeeded. *)
Theorem extract_zip_files_fails_closed `{Platform} (zip_file : UploadedFile)
    (w : World) :
  (forall temp_dir w1 e w2,
      mkdtemp w = (Ret temp_dir, w1) ->
      extract_and_walk zip_file temp_dir w1 = (Raise e, w2) ->
      zip_utils.extract_zip_files zip_file w =
        (Raise (Exn Exception ("Error extracting zip file: " +:+ exn_str e)),
         w2)) /\
  (forall file_paths w',
      zip_utils.extract_zip_files zip_file w = (Ret file_paths, w') ->
      exists temp_dir w1 items,
        mkdtemp w = (Ret temp_dir, w1) /\
        extract_and_walk zip_file temp_dir w1 = (Ret items, w')).
Proof.
  split.
  - intros temp_dir w1 e w2 Htmp Hfail.
    rewrite extract_zip_files_cases, Htmp, Hfail. reflexivity.
  - intros file_paths w'. rewrite extract_zip_files_cases.
    destruct (mkdtemp w) as [[temp_dir | e] w1]; [|discriminate].
    destruct (extract_and_walk zip_file temp_dir w1) as [[items | e] w2]
      eqn:Hwalk; [|discriminate].
    intros [= _ <-]. exists temp_dir, w1, items. split; [reflexivity|exact Hwalk].
Qed.

Lemma extract_zip_files_fails_closed_witness :
  @zip_utils.extract_zip_files MemFS.platform None MemFS.empty
    = (Raise (Exn Exception "Error extracting zip file: File is not a zip file"),
       example_scratch) /\
  exists temp_dir w1 items,
    @mkdtemp MemFS.platform MemFS.empty = (Ret temp_dir, w1) /\
    @extract_and_walk MemFS.platform example_archive temp_dir w1
      = (Ret items, example_extracted).
Proof.
  split.
  - apply (proj1 (@extract_zip_files_fails_closed MemFS.platform None MemFS.empty)
             "/tmp/tmp" example_scratch
             (Exn BadZipFile "File is not a zip file") example_scratch);
      reflexivity.
  - apply (proj2 (@extract_zip_files_fails_closed MemFS.platform
                    example_archive MemFS.empty)
             ["/tmp/tmp/a.txt"; "/tmp/tmp/b.py"; "/tmp/tmp/c.md"]
             example_extracted).
    reflexivity.
Defined.

(** C3, as amended.  The two copies of [extract_zip_files] agree whenever
    extraction succeeds: both return the same sorted list of the walked
    files that pass the filter.  They also agree when the scratch
    directory cannot be created: both let that error through.  When
    extraction itself fails with an error [e] they differ: the function of
    [zip_utils.py] raises ["Error extracting zip file: <e>"], the function
    of [file_merger.py] shows this message with [st.error] and returns the
    empty list. *)
Theorem extract_zip_files_two_copies `{Platform} (zip_file : UploadedFile)
    (w : World) :
  match mkdtemp w with
  | (Raise e, w1) =>
      file_merger.extract_zip_files zip_file w = (Raise e, w1) /\
      zip_utils.extract_zip_files zip_file w = (Raise e, w1)
  | (Ret temp_dir, w1) =>
      match extract_and_walk zip_file temp_dir w1 with
      | (Ret items, w2) =>
          let file_paths :=
            sorted (List.filter file_utils.is_text_file (walked_files items)) in
          file_merger.extract_zip_files zip_file w = (Ret file_paths, w2) /\
          zip_utils.extract_zip_files zip_file w = (Ret file_paths, w2)
      | (Raise e, w2) =>
          let msg := "Error extracting zip file: " +:+ exn_str e in
          zip_utils.extract_zip_files zip_file w
            = (Raise (Exn Exception msg), w2) /\
          file_merger.extract_zip_files zip_file w
            = (st_error msg;;; ret []) w2
      end
  end.
Proof.
  rewrite legacy_extract_zip_files_cases, extract_zip_files_cases.
  destruct (mkdtemp w) as [[temp_dir | e] w1]; [|split; reflexivity].
  destruct (extract_and_walk zip_file temp_dir w1) as [[items | e] w2];
    split; reflexivity.
Qed.

(** C3 as the specification has it fails: on an upload that is not a ZIP
    archive, the function of [file_merger.py] returns the empty list (and
    logs the error on the page), while the function of [zip_utils.py]
    raises. *)
Lemma extract_zip_files_differ_on_failure :
  fst (@file_merger.extract_zip_files MemFS.platform None MemFS.empty)
    = Ret [] /\
  fst (@zip_utils.extract_zip_files MemFS.platform None MemFS.empty)
    = Raise (Exn Exception "Error extracting zip file: File is not a zip file") /\
  @file_merger.extract_zip_files MemFS.platform None MemFS.empty
    <> @zip_utils.extract_zip_files MemFS.platform None MemFS.empty.
Proof.
  split; [reflexivity|]. split; [reflexivity|].
  intros Heq. apply (f_equal fst) in Heq. vm_compute in Heq. discriminate Heq.
Qed.

(** ** Type Filter *)

Lemma SUPPORTED_EXTENSIONS_allow_list :
  file_utils.SUPPORTED_EXTENSIONS = list_to_set allow_list.
Proof. reflexivity. Qed.

(** C7.  [is_text_file] is true exactly when the lowercased suffix of the
    path, dot included, is in the allow-list of the specification.  A path
    whose lowercased suffix is [.exe], and a path without suffix, are
    rejected.  The copy in [file_merger.py] gives the same answers. *)
Theorem is_text_file_allow_list (file_path : string) :
  let extension := Str.lower (pathlib.suffix file_path) in
  (file_utils.is_text_file file_path = true <-> In extension allow_list) /\
  (extension = ".exe" -> file_utils.is_text_file file_path = false) /\
  (pathlib.suffix file_path = "" -> file_utils.is_text_file file_path = false) /\
  file_merger.is_text_file file_path = file_utils.is_text_file file_path.
Proof.
  cbn zeta. split; [|split; [|split]].
  - unfold file_utils.is_text_file. rewrite bool_decide_eq_true.
    rewrite SUPPORTED_EXTENSIONS_allow_list, elem_of_list_to_set.
    apply list_elem_of_In.
  - intros Hext. unfold file_utils.is_text_file. rewrite Hext. reflexivity.
  - intros Hext. unfold file_utils.is_text_file. rewrite Hext. reflexivity.
  - reflexivity.
Qed.

Lemma is_text_file_allow_list_witness :
  file_utils.is_text_file "/tmp/tmp/src/Main.JAVA" = true /\
  file_utils.is_text_file "/tmp/tmp/bin/setup.EXE" = false /\
  file_utils.is_text_file "/tmp/tmp/Makefile" = false.
Proof.
  split; [|split].
  - apply (proj1 (is_text_file_allow_list "/tmp/tmp/src/Main.JAVA")).
    vm_compute. tauto.
  - apply (proj1 (proj2 (is_text_file_allow_list "/tmp/tmp/bin/setup.EXE"))).
    reflexivity.
  - apply (proj1 (proj2 (proj2 (is_text_file_allow_list "/tmp/tmp/Makefile")))).
    reflexivity.
Defined.

(** ** Statistics Reporter *)

Lemma count_line_breaks (s : string) :
  Str.count LF s
  = length (List.filter (Ascii.eqb LF) (list_ascii_of_string s)).
Proof.
  induction s as [|a s IH]; [reflexivity|].
  cbn [Str.count list_ascii_of_string List.filter].
  rewrite (Ascii.eqb_sym LF a).
  destruct (Ascii.eqb a LF); cbn; rewrite IH; reflexivity.
Qed.

Lemma length_chars (s : string) :
  String.length s = length (list_ascii_of_string s).
Proof.
  induction s as [|a s IH]; [reflexivity|]. cbn. rewrite IH. reflexivity.
Qed.

(** C6.  The statistics of a merged text: the character count is the
    number of characters of the text, the line count is the number of its
    line-break characters plus one.  So the empty text has line count 1, a
    text without line break has line count 1, and a text with exactly
    three line breaks has line count 4.  The statistics block of [main] in
    [file_merger.py] computes the same numbers. *)
Theorem statistics_counts (merged_content : string) (file_paths : list string) :
  let stats := app.render_statistics merged_content file_paths in
  let chars := list_ascii_of_string merged_content in
  let line_breaks := length (List.filter (Ascii.eqb LF) chars) in
  total_characters stats = length chars /\
  total_lines stats = (line_breaks + 1)%nat /\
  (merged_content = "" -> total_lines stats = 1%nat) /\
  (line_breaks = 0%nat -> total_lines stats = 1%nat) /\
  (line_breaks = 3%nat -> total_lines stats = 4%nat) /\
  file_merger.main_statistics merged_content file_paths = stats.
Proof.
  cbn zeta. cbn [app.render_statistics total_characters total_lines].
  rewrite count_line_breaks, <- length_chars.
  split; [reflexivity|]. split; [reflexivity|].
  split; [intros ->; reflexivity|].
  split; [intros ->; reflexivity|].
  split; [intros ->; reflexivity|reflexivity].
Qed.

Lemma statistics_counts_witness :
  total_lines (app.render_statistics "" []) = 1%nat /\
  total_lines (app.render_statistics "one line" ["/tmp/a.txt"]) = 1%nat /\
  total_lines
    (app.render_statistics ("a" +:+ NL +:+ "b" +:+ NL +:+ "c" +:+ NL +:+ "d")
       ["/tmp/a.txt"]) = 4%nat.
Proof.
  split; [|split].
  - apply (proj1 (proj2 (proj2 (statistics_counts "" [])))). reflexivity.
  - apply (proj1 (proj2 (proj2 (proj2
             (statistics_counts "one line" ["/tmp/a.txt"]))))).
    reflexivity.
  - apply (proj1 (proj2 (proj2 (proj2 (proj2
             (statistics_counts
                ("a" +:+ NL +:+ "b" +:+ NL +:+ "c" +:+ NL +:+ "d")
                ["/tmp/a.txt"])))))).
    reflexivity.
Defined.

(** ** The pipeline on the in-memory platform *)

Example detect_encoding_ascii :
  fst (@file_utils.detect_encoding MemFS.platform "/tmp/ok.txt" example_files)
  = Ret "ascii".
Proof. reflexivity. Qed.

Example detect_encoding_empty_file :
  fst (@file_utils.detect_encoding MemFS.platform "/tmp/empty.txt" example_files)
  = Ret "utf-8".
Proof. reflexivity. Qed.

Example detect_encoding_missing_file :
  fst (@file_utils.detect_encoding MemFS.platform "/tmp/none.txt" example_files)
  = Ret "utf-8".
Proof. reflexivity. Qed.

Example read_file_content_plain :
  fst (@file_utils.read_file_content MemFS.platform "/tmp/ok.txt" example_files)
  = Ret ("plain", true).
Proof. reflexivity. Qed.

(** The undecodable byte is dropped by the second read. *)
Example read_file_content_fallback :
  fst (@file_utils.read_file_content MemFS.platform "/tmp/bad.txt" example_files)
  = Ret ("hi", true).
Proof. reflexivity. Qed.

Example read_file_content_missing_file :
  fst (@file_utils.read_file_content MemFS.platform "/tmp/none.txt" example_files)
  = Ret ("[Error reading /tmp/none.txt: [Errno 2] No such file or directory: '/tmp/none.txt']",
         false).
Proof. reflexivity. Qed.

(** Three paths, the first equal to the last: one separator, after the
    second file only. *)
Example merge_files_first_equals_last :
  fst (@file_merger.merge_pieces MemFS.platform
         ["/tmp/ok.txt"; "/tmp/bad.txt"; "/tmp/ok.txt"] "SEP" example_files)
  = Ret [ Header (header_of "/tmp/ok.txt"); Content "plain";
          Header (header_of "/tmp/bad.txt"); Content "hi"; Separator "SEP";
          Header (header_of "/tmp/ok.txt"); Content "plain" ].
Proof. reflexivity. Qed.

(** Three distinct paths: two separators, between the files. *)
Example merge_files_distinct_paths :
  fst (@file_merger.merge_pieces MemFS.platform
         ["/tmp/ok.txt"; "/tmp/bad.txt"; "/tmp/none.txt"] "SEP" example_files)
  = Ret [ Header (header_of "/tmp/ok.txt"); Content "plain"; Separator "SEP";
          Header (header_of "/tmp/bad.txt"); Content "hi"; Separator "SEP";
          Header (header_of "/tmp/none.txt");
          Content "[Error reading /tmp/none.txt: [Errno 2] No such file or directory: '/tmp/none.txt']" ].
Proof. reflexivity. Qed.

(** * Further properties *)

(** ** Strings and lists *)

Lemma string_app_cons (x : ascii) (a b : string) :
  String x a +:+ b = String x (a +:+ b).
Proof. reflexivity. Qed.

Lemma string_app_assoc (a b c : string) : (a +:+ b) +:+ c = a +:+ (b +:+ c).
Proof.
  induction a as [|x a IH]; [reflexivity|].
  rewrite !string_app_cons, IH. reflexivity.
Qed.

Lemma string_app_nil_r (a : string) : a +:+ "" = a.
Proof.
  induction a as [|x a IH]; [reflexivity|].
  rewrite string_app_cons, IH. reflexivity.
Qed.

Lemma join_cons (x : string) (l : list string) :
  Str.join (x :: l) = x +:+ Str.join l.
Proof.
  unfold Str.join. destruct l as [|y l]; cbn [String.concat].
  - symmetry. apply string_app_nil_r.
  - reflexivity.
Qed.

Lemma join_app (l1 l2 : list string) :
  Str.join (l1 ++ l2) = Str.join l1 +:+ Str.join l2.
Proof.
  induction l1 as [|x l1 IH]; [reflexivity|].
  cbn [app]. rewrite !join_cons, IH, string_app_assoc. reflexivity.
Qed.

Lemma join_segments last separator (paths contents : list string) :
  Str.join (List.map text
              (concat (zip_with (segment last separator) paths contents)))
  = Str.join (zip_with (segment_text last separator) paths contents).
Proof.
  revert contents. induction paths as [|p paths IH]; intros [|c contents];
    try reflexivity.
  cbn [zip_with concat]. rewrite List.map_app, join_app, IH, join_cons.
  f_equal. unfold segment, segment_text.
  destruct (negb (String.eqb p last)); cbn [List.map app text];
    rewrite !join_cons; cbn [Str.join String.concat];
    rewrite ?string_app_nil_r; reflexivity.
Qed.

Section merge_reads.
Context `{Platform}.

Lemma read_all_returns (file_paths : list string) w :
  exists contents w',
    read_all file_paths w = (Ret contents, w') /\
    length contents = length file_paths.
Proof.
  revert w. induction file_paths as [|p rest IH]; intros w.
  - exists [], w. split; reflexivity.
  - destruct (read_file_content_returns p w) as (c & ok & w1 & Hr).
    destruct (IH w1) as (cs & w' & Hrest & Hlen).
    exists (c :: cs), w'. cbn [read_all]. unfold bind. rewrite Hr, Hrest.
    split; [reflexivity|]. cbn. rewrite Hlen. reflexivity.
Qed.

Lemma merge_loop_read_all init last separator :
  forall todo merged_content w,
    app.merge_loop (init ++ [last]) separator todo merged_content w =
      match read_all todo w with
      | (Ret contents, w') =>
          (Ret (merged_content ++
                concat (zip_with (segment last separator) todo contents)), w')
      | (Raise e, w') => (Raise e, w')
      end.
Proof.
  induction todo as [|file_path todo IH]; intros merged_content w.
  - cbn. unfold ret. rewrite app_nil_r. reflexivity.
  - cbn [app.merge_loop read_all]. unfold bind at 1. unfold bind at 2.
    destruct (file_utils.read_file_content file_path w) as [[[content ok] | e] w1];
      [|reflexivity].
    unfold bind at 1. rewrite index_last_snoc. rewrite IH.
    unfold bind. cbn [fst].
    destruct (read_all todo w1) as [[contents | e] w2]; [|reflexivity].
    unfold ret. f_equal. f_equal. cbn [zip_with concat]. unfold segment.
    destruct (negb (String.eqb file_path last));
      rewrite <- ?app_assoc; reflexivity.
Qed.

End merge_reads.

(** ** Strings and paths *)

Lemma string_length_app (a b : string) :
  String.length (a +:+ b) = (String.length a + String.length b)%nat.
Proof.
  induction a as [|x a IH]; [reflexivity|].
  rewrite string_app_cons. cbn [String.length]. rewrite IH. reflexivity.
Qed.

Lemma count_cons (c a : ascii) (s : string) :
  Str.count c (String a s)
  = ((if Ascii.eqb a c then 1 else 0) + Str.count c s)%nat.
Proof. reflexivity. Qed.

Lemma count_app (c : ascii) (a b : string) :
  Str.count c (a +:+ b) = (Str.count c a + Str.count c b)%nat.
Proof.
  induction a as [|x a IH]; [reflexivity|].
  rewrite string_app_cons, !count_cons, IH. lia.
Qed.

Lemma count_cons_zero (c a : ascii) (s : string) :
  Str.count c (String a s) = 0%nat ->
  Ascii.eqb a c = false /\ Str.count c s = 0%nat.
Proof.
  rewrite count_cons. destruct (Ascii.eqb a c); [discriminate|]. auto.
Qed.

Lemma split_acc_no_sep (sep : ascii) (s cur : string) :
  Str.count sep s = 0%nat ->
  Str.split_acc sep s cur = [String.rev_app cur s].
Proof.
  revert cur. induction s as [|a s IH]; intros cur Hs; [reflexivity|].
  apply count_cons_zero in Hs as [Ha Hs].
  cbn [Str.split_acc]. rewrite Ha. rewrite IH by exact Hs. reflexivity.
Qed.

Lemma split_acc_app (sep : ascii) (s1 s2 cur : string) :
  Str.split_acc sep (s1 +:+ String sep s2) cur
  = Str.split_acc sep s1 cur ++ Str.split_acc sep s2 "".
Proof.
  revert cur. induction s1 as [|a s1 IH]; intros cur.
  - cbn [Str.split_acc]. change ("" +:+ String sep s2) with (String sep s2).
    cbn [Str.split_acc]. rewrite Ascii.eqb_refl. reflexivity.
  - rewrite string_app_cons. cbn [Str.split_acc].
    destruct (Ascii.eqb a sep); rewrite IH; reflexivity.
Qed.

Lemma name_plain (file : string) :
  Str.count "/" file = 0%nat -> file <> "" -> file <> "." ->
  pathlib.name file = file.
Proof.
  intros Hs Hne Hdot. unfold pathlib.name, pathlib.parts, Str.split.
  rewrite split_acc_no_sep by exact Hs. cbn [String.rev_app List.filter].
  apply String.eqb_neq in Hne, Hdot. rewrite Hne, Hdot. reflexivity.
Qed.

Lemma name_slash (dir file : string) :
  Str.count "/" file = 0%nat -> file <> "" -> file <> "." ->
  pathlib.name (dir +:+ String "/" file) = file.
Proof.
  intros Hs Hne Hdot. unfold pathlib.name, pathlib.parts, Str.split.
  rewrite split_acc_app, List.filter_app.
  rewrite (split_acc_no_sep _ file) by exact Hs.
  cbn [String.rev_app List.filter].
  apply String.eqb_neq in Hne, Hdot. rewrite Hne, Hdot. cbn [negb andb].
  apply List.last_last.
Qed.

Lemma endswith_inv (c : ascii) (a : string) :
  Str.endswith c a = true -> exists a', a = a' +:+ String c "".
Proof.
  induction a as [|x a IH]; [discriminate|].
  destruct a as [|y a].
  - cbn. intros Hx. apply Ascii.eqb_eq in Hx. subst. exists "". reflexivity.
  - intros Hend. change (Str.endswith c (String y a) = true) in Hend.
    destruct (IH Hend) as [a' Ha']. exists (String x a').
    rewrite string_app_cons, <- Ha'. reflexivity.
Qed.

Lemma startswith_no (c : ascii) (s : string) :
  Str.count c s = 0%nat -> Str.startswith c s = false.
Proof.
  destruct s as [|a s]; [reflexivity|]. intros Hs.
  apply count_cons_zero in Hs as [Ha _]. exact Ha.
Qed.

(** The three shapes of [os.path.join root file] for a plain file name. *)
Lemma join_shape (root file : string) :
  Str.count "/" file = 0%nat ->
  os_path.join root file = file \/
  exists dir, os_path.join root file = dir +:+ String "/" file.
Proof.
  intros Hs. unfold os_path.join. rewrite (startswith_no _ _ Hs).
  destruct (String.eqb_spec root "") as [->|Hroot]; [left; reflexivity|].
  cbn [orb]. destruct (Str.endswith "/" root) eqn:Hend.
  - right. apply endswith_inv in Hend as [dir ->]. exists dir.
    rewrite string_app_assoc. reflexivity.
  - right. exists root. reflexivity.
Qed.

Lemma name_join (root file : string) :
  Str.count "/" file = 0%nat -> file <> "" -> file <> "." ->
  pathlib.name (os_path.join root file) = file.
Proof.
  intros Hs Hne Hdot.
  destruct (join_shape root file Hs) as [-> | [dir ->]].
  - apply name_plain; assumption.
  - apply name_slash; assumption.
Qed.

Lemma rfind_from_no (c : ascii) (s : string) (i found : Z) :
  Str.count c s = 0%nat -> Str.rfind_from c s i found = found.
Proof.
  revert i found. induction s as [|a s IH]; intros i found Hs; [reflexivity|].
  apply count_cons_zero in Hs as [Ha Hs].
  cbn [Str.rfind_from]. rewrite Ha. apply IH, Hs.
Qed.

Lemma rfind_from_app (c : ascii) (s1 s2 : string) (i found : Z) :
  Str.rfind_from c (s1 +:+ s2) i found
  = Str.rfind_from c s2 (i + Z.of_nat (String.length s1))
      (Str.rfind_from c s1 i found).
Proof.
  revert i found. induction s1 as [|a s1 IH]; intros i found.
  - cbn [Str.rfind_from String.length]. change ("" +:+ s2) with s2.
    rewrite Z.add_0_r. reflexivity.
  - rewrite string_app_cons. cbn [Str.rfind_from String.length]. rewrite IH.
    f_equal. lia.
Qed.

Lemma rfind_last (c : ascii) (s1 s2 : string) :
  Str.count c s2 = 0%nat ->
  Str.rfind c (s1 +:+ String c s2) = Z.of_nat (String.length s1).
Proof.
  intros Hs. unfold Str.rfind. rewrite rfind_from_app.
  cbn [Str.rfind_from]. rewrite Ascii.eqb_refl.
  rewrite rfind_from_no by exact Hs. lia.
Qed.

Lemma drop_app (s1 s2 : string) :
  Str.drop (String.length s1) (s1 +:+ s2) = s2.
Proof.
  induction s1 as [|a s1 IH]; [destruct s2; reflexivity|].
  rewrite string_app_cons. cbn [String.length Str.drop]. exact IH.
Qed.

Lemma drop_zero (s : string) : Str.drop 0 s = s.
Proof. destruct s; reflexivity. Qed.

Lemma basename_plain (file : string) :
  Str.count "/" file = 0%nat -> os_path.basename file = file.
Proof.
  intros Hs. unfold os_path.basename, Str.rfind, Str.slice_from.
  rewrite rfind_from_no by exact Hs. apply drop_zero.
Qed.

Lemma basename_slash (dir file : string) :
  Str.count "/" file = 0%nat ->
  os_path.basename (dir +:+ String "/" file) = file.
Proof.
  intros Hs. unfold os_path.basename, Str.slice_from.
  rewrite rfind_last by exact Hs.
  replace (Z.to_nat (Z.of_nat (String.length dir) + 1))
    with (String.length (dir +:+ String "/" "")).
  - change (String "/" file) with (String "/" "" +:+ file).
    rewrite <- string_app_assoc. apply drop_app.
  - rewrite string_length_app. cbn [String.length]. lia.
Qed.

Lemma basename_join (root file : string) :
  Str.count "/" file = 0%nat ->
  os_path.basename (os_path.join root file) = file.
Proof.
  intros Hs. destruct (join_shape root file Hs) as [-> | [dir ->]].
  - apply basename_plain, Hs.
  - apply basename_slash, Hs.
Qed.

Lemma suffix_stem_ext (stem e : string) :
  stem <> "" -> Str.count "/" stem = 0%nat ->
  e <> "" -> Str.count "/" e = 0%nat -> Str.count "." e = 0%nat ->
  pathlib.name (stem +:+ String "." e) = stem +:+ String "." e /\
  (let name := stem +:+ String "." e in
   let i := Str.rfind "." name in
   (if (0 <? i) && (i <? Z.of_nat (String.length name) - 1)
    then Str.slice_from i name else "") = String "." e).
Proof.
  intros Hstem Hs1 He Hs2 Hd. split.
  - apply name_plain.
    + rewrite count_app, count_cons, Hs1, Hs2. reflexivity.
    + intros Habs. apply (f_equal String.length) in Habs.
      rewrite string_length_app in Habs. cbn [String.length] in Habs. lia.
    + intros Habs. apply (f_equal String.length) in Habs.
      rewrite string_length_app in Habs. cbn [String.length] in Habs.
      destruct stem; [congruence|cbn [String.length] in Habs; lia].
  - cbn zeta. rewrite rfind_last by exact Hd.
    rewrite string_length_app. cbn [String.length].
    assert (0 < String.length stem)%nat by (destruct stem; [congruence|cbn; lia]).
    assert (0 < String.length e)%nat by (destruct e; [congruence|cbn; lia]).
    replace (0 <? Z.of_nat (String.length stem)) with true
      by (symmetry; apply Z.ltb_lt; lia).
    replace (Z.of_nat (String.length stem) <?
             Z.of_nat (String.length stem + S (String.length e)) - 1) with true
      by (symmetry; apply Z.ltb_lt; lia).
    cbn [andb]. unfold Str.slice_from. rewrite Nat2Z.id. apply drop_app.
Qed.

(** ** More on the Merge Engine *)

Lemma list_snoc_cases {A} (l : list A) :
  l = [] \/ exists init last, l = init ++ [last].
Proof.
  induction l as [|x l _] using rev_ind; [left; reflexivity|].
  right. exists l, x. reflexivity.
Qed.

Section merge_more.
Context `{Platform}.

Lemma merge_pieces_read_all (file_paths : list string) separator w :
  app.merge_pieces file_paths separator w =
    match read_all file_paths w with
    | (Ret contents, w') =>
        (Ret (concat (zip_with (segment (List.last file_paths "") separator)
                        file_paths contents)), w')
    | (Raise e, w') => (Raise e, w')
    end.
Proof.
  destruct (list_snoc_cases file_paths) as [-> | (init & last & ->)].
  - reflexivity.
  - unfold app.merge_pieces. rewrite List.last_last.
    apply (merge_loop_read_all init last separator (init ++ [last]) []).
Qed.

Lemma merge_files_read_all (file_paths : list string) separator w :
  exists contents w',
    read_all file_paths w = (Ret contents, w') /\
    length contents = length file_paths /\
    app.merge_files file_paths separator w =
      (Ret (Str.join (zip_with (segment_text (List.last file_paths "") separator)
                        file_paths contents)), w').
Proof.
  destruct (read_all_returns file_paths w) as (contents & w' & Hread & Hlen).
  exists contents, w'. split; [exact Hread|]. split; [exact Hlen|].
  unfold app.merge_files, bind. rewrite merge_pieces_read_all, Hread.
  unfold ret. rewrite join_segments. reflexivity.
Qed.

End merge_more.

(** X1.  [merge_files] never raises: for every list of paths, every
    separator and every state of the world it returns a merged text.  A
    file that cannot be read does not abort the batch. *)
Theorem merge_files_never_raises `{Platform}
    (file_paths : list string) (separator : string) (w : World) :
  (exists merged w',
      app.merge_files file_paths separator w = (Ret merged, w')) /\
  (exists merged w',
      file_merger.merge_files file_paths separator w = (Ret merged, w')).
Proof.
  destruct (merge_files_read_all file_paths separator w)
    as (contents & w' & _ & _ & Hrun).
  split; eexists _, w'; exact Hrun.
Qed.

(** X2.  [merge_files] reads every file of the list exactly once, in the
    order of the list, each read starting in the world the previous one
    left.  The merged text is, for each path in order, its header, the
    content read for it and, when the path differs from the last path of
    the list, the separator. *)
Theorem merge_files_reads_in_order `{Platform}
    (file_paths : list string) (separator : string) (w : World) :
  exists contents w',
    read_all file_paths w = (Ret contents, w') /\
    length contents = length file_paths /\
    app.merge_files file_paths separator w =
      (Ret (Str.join (zip_with (segment_text (List.last file_paths "") separator)
                        file_paths contents)), w') /\
    file_merger.merge_files file_paths separator w =
      app.merge_files file_paths separator w.
Proof.
  destruct (merge_files_read_all file_paths separator w)
    as (contents & w' & Hread & Hlen & Hrun).
  exists contents, w'. repeat split; assumption.
Qed.

(** X3.  Merging a single file gives its header followed by its content
    and nothing else: the separator is not used, whatever it is. *)
Theorem merge_files_single `{Platform} (file_path separator content : string)
    (ok : bool) (w w' : World) :
  file_utils.read_file_content file_path w = (Ret (content, ok), w') ->
  app.merge_files [file_path] separator w
    = (Ret (header_of file_path +:+ content), w') /\
  file_merger.merge_files [file_path] separator w
    = (Ret (header_of file_path +:+ content), w').
Proof.
  intros Hr.
  assert (Hrun : app.merge_files [file_path] separator w
                 = (Ret (header_of file_path +:+ content), w')).
  { unfold app.merge_files, app.merge_pieces. cbn [app.merge_loop].
    unfold bind at 1. unfold bind at 1. rewrite Hr.
    unfold bind at 1. unfold index_last at 1. cbn [List.map List.last].
    unfold ret at 1. rewrite String.eqb_refl. cbn [negb].
    unfold ret. cbn [app List.map text]. rewrite !join_cons.
    cbn [Str.join String.concat]. rewrite string_app_nil_r. reflexivity. }
  split; exact Hrun.
Qed.

Lemma merge_files_single_witness :
  @app.merge_files MemFS.platform ["/tmp/ok.txt"] "SEP" example_files
    = (Ret (header_of "/tmp/ok.txt" +:+ "plain"), example_files) /\
  @file_merger.merge_files MemFS.platform ["/tmp/ok.txt"] "SEP" example_files
    = (Ret (header_of "/tmp/ok.txt" +:+ "plain"), example_files).
Proof.
  apply (@merge_files_single MemFS.platform "/tmp/ok.txt" "SEP" "plain" true
           example_files example_files).
  reflexivity.
Defined.

Lemma segments_without_last last separator (paths contents : list string) :
  ~ In last paths ->
  zip_with (segment last separator) paths contents
  = zip_with (fun p c => [Header (header_of p); Content c; Separator separator])
      paths contents.
Proof.
  revert contents. induction paths as [|p paths IH]; intros contents Hnotin;
    [reflexivity|].
  destruct contents as [|c contents]; [reflexivity|].
  cbn [zip_with]. rewrite IH by (intros Hin; apply Hnotin; right; exact Hin).
  f_equal. unfold segment.
  destruct (String.eqb_spec p last) as [->|Hne].
  - exfalso. apply Hnotin. left. reflexivity.
  - reflexivity.
Qed.

(** X4.  When the last path of the list does not occur earlier in it (in
    particular when all paths are distinct), the pieces of the merged
    document are: header, content and separator for every path but the
    last, then header and content of the last path.  So there are [N]
    headers and [N - 1] separators, none before the first header and none
    after the last content. *)
Theorem merge_pieces_last_path_once `{Platform}
    (init : list string) (last separator : string) (w : World) :
  ~ In last init ->
  exists contents content w',
    length contents = length init /\
    app.merge_pieces (init ++ [last]) separator w =
      (Ret (concat (zip_with
                      (fun p c => [ Header (header_of p); Content c;
                                    Separator separator ])
                      init contents)
            ++ [Header (header_of last); Content content]), w') /\
    file_merger.merge_pieces (init ++ [last]) separator w =
      app.merge_pieces (init ++ [last]) separator w.
Proof.
  intros Hnotin.
  destruct (merge_pieces_segments init last separator w)
    as (contents & w' & Hlen & Hrun).
  rewrite length_app in Hlen. cbn [length] in Hlen.
  destruct (list_snoc_cases contents) as [-> | (cs & c & ->)];
    [cbn in Hlen; lia|].
  rewrite length_app in Hlen. cbn [length] in Hlen.
  exists cs, c, w'. split; [lia|]. split; [|reflexivity].
  rewrite Hrun. f_equal. f_equal.
  rewrite zip_with_app by lia. rewrite concat_app.
  rewrite segments_without_last by exact Hnotin.
  cbn [zip_with concat]. unfold segment. rewrite String.eqb_refl.
  cbn [negb]. rewrite !app_nil_r. reflexivity.
Qed.

Lemma merge_pieces_last_path_once_witness :
  exists contents content w',
    length contents = 2%nat /\
    @app.merge_pieces MemFS.platform
      (["/tmp/ok.txt"; "/tmp/bad.txt"] ++ ["/tmp/none.txt"]) "SEP" example_files =
      (Ret (concat (zip_with
                      (fun p c => [ Header (header_of p); Content c;
                                    Separator "SEP" ])
                      ["/tmp/ok.txt"; "/tmp/bad.txt"] contents)
            ++ [Header (header_of "/tmp/none.txt"); Content content]), w') /\
    @file_merger.merge_pieces MemFS.platform
      (["/tmp/ok.txt"; "/tmp/bad.txt"] ++ ["/tmp/none.txt"]) "SEP" example_files =
    @app.merge_pieces MemFS.platform
      (["/tmp/ok.txt"; "/tmp/bad.txt"] ++ ["/tmp/none.txt"]) "SEP" example_files.
Proof.
  apply (@merge_pieces_last_path_once MemFS.platform
           ["/tmp/ok.txt"; "/tmp/bad.txt"] "/tmp/none.txt" "SEP" example_files).
  cbn. intros [Habs | [Habs | []]]; discriminate Habs.
Defined.

Lemma filter_count_occ (last : string) (l : list string) :
  (length (List.filter (fun p => negb (String.eqb p last)) l)
   + count_occ string_dec l last = length l)%nat.
Proof.
  induction l as [|p l IH]; [reflexivity|].
  cbn [List.filter count_occ length].
  destruct (String.eqb_spec p last) as [->|Hne]; cbn [negb].
  - destruct (string_dec last last) as [_|Hne]; [lia|congruence].
  - destruct (string_dec p last) as [Heq|_]; [congruence|]. cbn [length]. lia.
Qed.

(** X5.  The number of separators in the merged document is the length
    of the list minus the number of times the last path occurs in it: a
    separator follows exactly the files whose path differs from the last
    path.  The headers are those of the paths, in order. *)
Theorem merge_pieces_separator_count `{Platform}
    (init : list string) (last separator : string) (w : World) :
  exists pieces w',
    app.merge_pieces (init ++ [last]) separator w = (Ret pieces, w') /\
    file_merger.merge_pieces (init ++ [last]) separator w = (Ret pieces, w') /\
    headers pieces = List.map header_of (init ++ [last]) /\
    Forall (fun s => s = separator) (separators pieces) /\
    (length (separators pieces)
     + count_occ string_dec (init ++ [last]) last
     = length (init ++ [last]))%nat.
Proof.
  destruct (merge_pieces_headers_separators init last separator w)
    as (pieces & w' & Hrun & Hh & Hs).
  exists pieces, w'. split; [exact Hrun|]. split; [exact Hrun|].
  split; [exact Hh|]. split.
  - rewrite Hs. apply List.Forall_forall. intros s Hin.
    apply List.in_map_iff in Hin as (p & <- & _). reflexivity.
  - rewrite Hs, length_map, count_occ_app, length_app. cbn [count_occ length].
    destruct (string_dec last last) as [_|Hne]; [|congruence].
    pose proof (filter_count_occ last init). lia.
Qed.

(** X6.  The header of a file shows the bare file name: for a file name
    without slash joined to any directory, the header is a line break,
    the name with a colon, a line break, a run of dashes one longer than
    the name, and a line break.  Two files of the same name in different
    directories get the same header. *)
Theorem header_shows_file_name (root root' file : string) :
  Str.count "/" file = 0%nat ->
  header_of (os_path.join root file) =
    NL +:+ file +:+ ":" +:+ NL +:+
    Str.repeat "-" (String.length file + 1) +:+ NL /\
  header_of (os_path.join root file) = header_of (os_path.join root' file).
Proof.
  intros Hs. unfold header_of. rewrite !basename_join by exact Hs.
  split; reflexivity.
Qed.

Lemma header_shows_file_name_witness :
  header_of (os_path.join "/tmp/tmp/src" "main.py") =
    NL +:+ "main.py" +:+ ":" +:+ NL +:+ Str.repeat "-" 8 +:+ NL /\
  header_of (os_path.join "/tmp/tmp/src" "main.py")
  = header_of (os_path.join "/tmp/tmp/test/" "main.py").
Proof.
  apply (header_shows_file_name "/tmp/tmp/src" "/tmp/tmp/test/" "main.py").
  reflexivity.
Defined.

Lemma suffix_join (root file : string) :
  Str.count "/" file = 0%nat -> file <> "" -> file <> "." ->
  pathlib.suffix (os_path.join root file) = pathlib.suffix file.
Proof.
  intros Hs Hne Hdot. unfold pathlib.suffix.
  rewrite name_join, name_plain by assumption. reflexivity.
Qed.

(** X7.  Whether an extracted file is eligible depends on its own name
    only, not on the directory it lies in: for a file name as [os.walk]
    lists it (not empty, without slash, not the single dot) the Type
    Filter gives the same answer for the joined path as for the name.
    A dot in a directory name never makes a file eligible. *)
Theorem is_text_file_ignores_directory (root file : string) :
  Str.count "/" file = 0%nat -> file <> "" -> file <> "." ->
  file_utils.is_text_file (os_path.join root file)
    = file_utils.is_text_file file /\
  file_merger.is_text_file (os_path.join root file)
    = file_merger.is_text_file file.
Proof.
  intros Hs Hne Hdot.
  unfold file_utils.is_text_file, file_merger.is_text_file.
  rewrite suffix_join by assumption. split; reflexivity.
Qed.

Lemma is_text_file_ignores_directory_witness :
  file_utils.is_text_file (os_path.join "/tmp/tmp/lib.py" "Makefile")
    = file_utils.is_text_file "Makefile" /\
  file_merger.is_text_file (os_path.join "/tmp/tmp/lib.py" "Makefile")
    = file_merger.is_text_file "Makefile".
Proof.
  apply (is_text_file_ignores_directory "/tmp/tmp/lib.py" "Makefile");
    [reflexivity | discriminate | discriminate].
Defined.

Lemma suffix_name_ext (stem e : string) :
  stem <> "" -> Str.count "/" stem = 0%nat ->
  e <> "" -> Str.count "/" e = 0%nat -> Str.count "." e = 0%nat ->
  pathlib.suffix (stem +:+ String "." e) = String "." e.
Proof.
  intros Hstem Hs1 He Hs2 Hd.
  destruct (suffix_stem_ext stem e Hstem Hs1 He Hs2 Hd) as [Hname Hsuf].
  unfold pathlib.suffix. rewrite Hname. exact Hsuf.
Qed.

(** X8.  A file named [stem.ext] (a non-empty stem, an extension without
    dot, neither with a slash) in any directory is eligible exactly when
    the lowercased [.ext] is in the allow-list.  The stem, which may
    hold dots itself, plays no part. *)
Theorem is_text_file_by_extension (root stem e : string) :
  stem <> "" -> Str.count "/" stem = 0%nat ->
  e <> "" -> Str.count "/" e = 0%nat -> Str.count "." e = 0%nat ->
  file_utils.is_text_file (os_path.join root (stem +:+ String "." e)) = true
  <-> In (Str.lower (String "." e)) allow_list.
Proof.
  intros Hstem Hs1 He Hs2 Hd.
  destruct (suffix_stem_ext stem e Hstem Hs1 He Hs2 Hd) as [Hname _].
  assert (Hfile : Str.count "/" (stem +:+ String "." e) = 0%nat).
  { rewrite count_app, count_cons, Hs1, Hs2. reflexivity. }
  assert (Hne : stem +:+ String "." e <> "").
  { intros Habs. apply (f_equal String.length) in Habs.
    rewrite string_length_app in Habs. cbn [String.length] in Habs. lia. }
  assert (Hdot : stem +:+ String "." e <> ".").
  { intros Habs. apply (f_equal String.length) in Habs.
    rewrite string_length_app in Habs. cbn [String.length] in Habs.
    destruct stem; [congruence|cbn [String.length] in Habs; lia]. }
  unfold file_utils.is_text_file.
  rewrite suffix_join, suffix_name_ext by assumption.
  rewrite bool_decide_eq_true, SUPPORTED_EXTENSIONS_allow_list,
    elem_of_list_to_set.
  apply list_elem_of_In.
Qed.

Lemma is_text_file_by_extension_witness :
  file_utils.is_text_file (os_path.join "/tmp/tmp/src" "archive.tar.JSON")
  = true.
Proof.
  apply (proj2 (is_text_file_by_extension "/tmp/tmp/src" "archive.tar" "JSON"
                  ltac:(discriminate) ltac:(reflexivity)
                  ltac:(discriminate) ltac:(reflexivity) ltac:(reflexivity))).
  vm_compute. tauto.
Defined.

(** X9.  A file whose name holds no dot ([Makefile]), or whose only dot is
    its first character ([.gitignore], and also [.py] or [.txt]), is never
    eligible, in whatever directory it lies. *)
Theorem is_text_file_rejects_dotless (root name : string) :
  name <> "" -> Str.count "/" name = 0%nat -> Str.count "." name = 0%nat ->
  file_utils.is_text_file (os_path.join root name) = false /\
  file_utils.is_text_file (os_path.join root (String "." name)) = false.
Proof.
  intros Hne Hs Hd. split.
  - unfold file_utils.is_text_file. rewrite suffix_join; try assumption.
    + unfold pathlib.suffix. rewrite name_plain; try assumption.
      * unfold Str.rfind. rewrite rfind_from_no by exact Hd. reflexivity.
      * intros ->. discriminate Hd.
    + intros ->. discriminate Hd.
  - assert (Hs' : Str.count "/" (String "." name) = 0%nat)
      by (rewrite count_cons; exact Hs).
    assert (Hdot : String "." name <> ".")
      by (intros [= Habs]; congruence).
    unfold file_utils.is_text_file.
    rewrite suffix_join; [|exact Hs'|discriminate|exact Hdot].
    unfold pathlib.suffix. rewrite name_plain; [|exact Hs'|discriminate|exact Hdot].
    change (String "." name) with ("" +:+ String "." name).
    rewrite rfind_last by exact Hd. reflexivity.
Qed.

Lemma is_text_file_rejects_dotless_witness :
  file_utils.is_text_file (os_path.join "/tmp/tmp" "py") = false /\
  file_utils.is_text_file (os_path.join "/tmp/tmp" ".py") = false.
Proof.
  apply (is_text_file_rejects_dotless "/tmp/tmp" "py");
    [discriminate | reflexivity | reflexivity].
Defined.

Lemma NoDup_filter_bool {A} (f : A -> bool) (l : list A) :
  NoDup l -> NoDup (List.filter f l).
Proof.
  induction 1 as [|x l Hx _ IH]; cbn [List.filter]; [constructor|].
  destruct (f x); [|exact IH]. constructor; [|exact IH].
  intros Hin. apply Hx. apply list_elem_of_In in Hin.
  apply List.filter_In in Hin as [Hin _]. apply list_elem_of_In, Hin.
Qed.

(** X10.  Paths that come out of the Archive Expander merge with one
    separator between any two files: when the walk lists every extracted
    file once, the list returned by [extract_zip_files] has no repeated
    path, and merging it gives as many headers as paths and one separator
    less. *)
Theorem extract_then_merge `{Platform} (zip_file : UploadedFile)
    (w : World) (temp_dir : string) (w1 : World) (items : list walk_item)
    (w2 : World) :
  mkdtemp w = (Ret temp_dir, w1) ->
  extract_and_walk zip_file temp_dir w1 = (Ret items, w2) ->
  NoDup (walked_files items) ->
  exists file_paths,
    zip_utils.extract_zip_files zip_file w = (Ret file_paths, w2) /\
    NoDup file_paths /\
    forall separator w3,
    exists pieces w4,
      app.merge_pieces file_paths separator w3 = (Ret pieces, w4) /\
      length (headers pieces) = length file_paths /\
      length (separators pieces) = (length file_paths - 1)%nat.
Proof.
  intros Htmp Hwalk Hnodup. eexists. split.
  { rewrite extract_zip_files_cases, Htmp, Hwalk. reflexivity. }
  set (file_paths :=
         sorted (List.filter file_utils.is_text_file (walked_files items))).
  assert (Hnd : NoDup file_paths).
  { unfold file_paths. rewrite sorted_Permutation.
    apply NoDup_filter_bool, Hnodup. }
  split; [exact Hnd|]. intros separator w3.
  destruct (list_snoc_cases file_paths) as [-> | (init & last & ->)].
  - exists [], w3. repeat split.
  - apply merge_pieces_last_path_unique.
    apply NoDup_app in Hnd as (_ & Hdisj & _).
    intros Hin. apply (Hdisj last); [apply list_elem_of_In, Hin|].
    apply list_elem_of_In. left. reflexivity.
Qed.

Lemma extract_then_merge_witness :
  exists file_paths,
    @zip_utils.extract_zip_files MemFS.platform example_archive MemFS.empty
      = (Ret file_paths, example_extracted) /\
    NoDup file_paths /\
    forall separator w3,
    exists pieces w4,
      @app.merge_pieces MemFS.platform file_paths separator w3
        = (Ret pieces, w4) /\
      length (headers pieces) = length file_paths /\
      length (separators pieces) = (length file_paths - 1)%nat.
Proof.
  apply (@extract_then_merge MemFS.platform example_archive MemFS.empty
           "/tmp/tmp" example_scratch example_items example_extracted);
    [reflexivity | reflexivity |].
  apply (bool_decide_unpack (NoDup (walked_files example_items))).
  vm_compute. exact I.
Defined.

(** ** More on the statistics *)

(** X11.  The line count is at least 1 and at most the character count
    plus one.  Over a concatenation the character counts add up, and the
    line counts add up to one more than the line count of the whole. *)
Theorem statistics_of_concatenation (a b : string) (file_paths : list string) :
  let stats s := app.render_statistics s file_paths in
  (1 <= total_lines (stats a))%nat /\
  (total_lines (stats a) <= total_characters (stats a) + 1)%nat /\
  total_characters (stats (a +:+ b))
    = (total_characters (stats a) + total_characters (stats b))%nat /\
  (total_lines (stats (a +:+ b)) + 1
    = total_lines (stats a) + total_lines (stats b))%nat.
Proof.
  cbn zeta. cbn [app.render_statistics total_characters total_lines].
  rewrite string_length_app, count_app.
  assert (Hle : (Str.count LF a <= String.length a)%nat).
  { induction a as [|x a IH]; [reflexivity|].
    rewrite count_cons. cbn [String.length].
    destruct (Ascii.eqb x LF); lia. }
  lia.
Qed.

(** ** Preview *)

Lemma slice_to_all (n : nat) (s : string) :
  (String.length s <= n)%nat -> str_slice_to n s = s.
Proof.
  revert n. induction s as [|a s IH]; intros [|n] Hle; try reflexivity.
  - cbn [String.length] in Hle. lia.
  - cbn [str_slice_to]. rewrite IH by (cbn [String.length] in Hle; lia).
    reflexivity.
Qed.

Lemma slice_to_length (n : nat) (s : string) :
  String.length (str_slice_to n s) = Nat.min n (String.length s).
Proof.
  revert n. induction s as [|a s IH]; intros [|n]; try reflexivity.
  cbn [str_slice_to String.length]. rewrite IH. reflexivity.
Qed.

Lemma slice_to_drop (n : nat) (s : string) :
  str_slice_to n s +:+ Str.drop n s = s.
Proof.
  revert n. induction s as [|a s IH]; intros [|n]; try reflexivity.
  cbn [str_slice_to Str.drop]. rewrite string_app_cons, IH. reflexivity.
Qed.

(** X12.  The preview of the merged text is the text itself when it has
    at most 1000 characters; otherwise it is the first 1000 characters of
    the text followed by three dots, 1003 characters in all.  The preview
    of [main] in [file_merger.py] is the same. *)
Theorem render_preview_truncates (merged_content : string) :
  let preview := app_rest.render_preview merged_content in
  ((String.length merged_content <= 1000)%nat -> preview = merged_content) /\
  ((1000 < String.length merged_content)%nat ->
     preview = str_slice_to 1000 merged_content +:+ "..." /\
     String.length preview = 1003%nat /\
     str_slice_to 1000 merged_content +:+ Str.drop 1000 merged_content
       = merged_content) /\
  (String.length preview <= 1003)%nat /\
  file_merger_rest.main_preview merged_content = preview.
Proof.
  cbn zeta. unfold app_rest.render_preview.
  assert (Hshort : (String.length merged_content <= 1000)%nat ->
            str_slice_to (Nat.min 1000 (String.length merged_content))
              merged_content +:+
            (if (Nat.min 1000 (String.length merged_content)
                 <? String.length merged_content)%nat then "..." else "")
            = merged_content).
  { intros Hle. rewrite Nat.min_r by exact Hle.
    rewrite Nat.ltb_irrefl, string_app_nil_r. apply slice_to_all. lia. }
  assert (Hlong : (1000 < String.length merged_content)%nat ->
            str_slice_to (Nat.min 1000 (String.length merged_content))
              merged_content +:+
            (if (Nat.min 1000 (String.length merged_content)
                 <? String.length merged_content)%nat then "..." else "")
            = str_slice_to 1000 merged_content +:+ "...").
  { intros Hlt. rewrite Nat.min_l by lia.
    replace (1000 <? String.length merged_content)%nat with true
      by (symmetry; apply Nat.ltb_lt; exact Hlt).
    reflexivity. }
  split; [exact Hshort|]. split.
  - intros Hlt. split; [apply Hlong, Hlt|]. split.
    + rewrite Hlong by exact Hlt.
      rewrite string_length_app, slice_to_length. cbn [String.length]. lia.
    + apply slice_to_drop.
  - split; [|reflexivity].
    destruct (Nat.le_gt_cases (String.length merged_content) 1000) as [Hle|Hlt].
    + rewrite Hshort by exact Hle. lia.
    + rewrite Hlong by exact Hlt.
      rewrite string_length_app, slice_to_length. cbn [String.length]. lia.
Qed.

Lemma render_preview_truncates_witness :
  app_rest.render_preview "short text" = "short text" /\
  app_rest.render_preview (Str.repeat "a" 1001)
    = str_slice_to 1000 (Str.repeat "a" 1001) +:+ "...".
Proof.
  split.
  - apply (proj1 (render_preview_truncates "short text")).
    apply Nat.leb_le. reflexivity.
  - apply (proj1 (proj2 (render_preview_truncates (Str.repeat "a" 1001)))).
    apply Nat.ltb_lt. reflexivity.
Defined.

(** ** Upload types *)

(** X13.  The file types the uploader of individual files accepts are
    the extensions of the Type Filter without their dot: [t] is accepted
    by the uploader of [app.py], and by the uploader of [main] in
    [file_merger.py], exactly when [.t] is in the allow-list. *)
Theorem upload_types_match_filter (t : string) :
  (In t app_rest.upload_types <-> In t file_merger_rest.upload_types) /\
  (In t file_merger_rest.upload_types <-> In (String "." t) allow_list) /\
  (In (String "." t) allow_list
   <-> String "." t ∈ file_utils.SUPPORTED_EXTENSIONS).
Proof.
  assert (Hsame : list_to_set app_rest.upload_types
                  = (list_to_set file_merger_rest.upload_types : gset string))
    by reflexivity.
  split; [|split].
  - rewrite <- !list_elem_of_In.
    rewrite <- !(elem_of_list_to_set (C := gset string)), Hsame. reflexivity.
  - change allow_list
      with (List.map (String ".") file_merger_rest.upload_types).
    rewrite List.in_map_iff. split.
    + intros Hin. exists t. split; [reflexivity|exact Hin].
    + intros (t' & [= ->] & Hin). exact Hin.
  - rewrite SUPPORTED_EXTENSIONS_allow_list, elem_of_list_to_set.
    symmetry. apply list_elem_of_In.
Qed.

(** ** More on the File Reader *)

(** X20.  When the File Reader reports [ok = false], the content it
    returns is an error marker that names the file: either
    ["[Error: Could not read file <path>]"] or
    ["[Error reading <path>: <message>]"]. *)
Theorem read_file_content_failure_marker `{Platform}
    (file_path content : string) (w w' : World) :
  file_utils.read_file_content file_path w = (Ret (content, false), w') ->
  content = "[Error: Could not read file " +:+ file_path +:+ "]" \/
  exists message,
    content = "[Error reading " +:+ file_path +:+ ": " +:+ message +:+ "]".
Proof.
  destruct (detect_encoding_returns file_path w) as (encoding & w1 & Hdet).
  rewrite (read_file_content_cases _ _ _ _ Hdet).
  destruct (read_text file_path encoding Strict w1) as [[c | e] w2];
    [discriminate|].
  destruct (bool_decide (exn_class e = UnicodeDecodeError)).
  - destruct (read_text file_path "utf-8" Ignore w2) as [[c | e'] w3];
      [discriminate|].
    intros [= <- _]. left. reflexivity.
  - intros [= <- _]. right. exists (exn_str e). reflexivity.
Qed.

Lemma read_file_content_failure_marker_witness :
  "[Error reading /tmp/none.txt: [Errno 2] No such file or directory: '/tmp/none.txt']"
  = "[Error: Could not read file " +:+ "/tmp/none.txt" +:+ "]" \/
  exists message,
    "[Error reading /tmp/none.txt: [Errno 2] No such file or directory: '/tmp/none.txt']"
    = "[Error reading " +:+ "/tmp/none.txt" +:+ ": " +:+ message +:+ "]".
Proof.
  apply (@read_file_content_failure_marker MemFS.platform "/tmp/none.txt" _
           example_files example_files).
  reflexivity.
Defined.

(** ** Saving, uploading and cleaning up *)

(** X14.  [save_content_to_file] never returns [False]: when the file is
    written it returns [True], and when opening or writing fails with an
    error [e] it raises the exception ["Error saving file: <e>"]. *)
Theorem save_content_to_file_outcome `{Session}
    (content output_path : string) (w : World) :
  file_utils_rest.save_content_to_file content output_path w =
    match write_text output_path content w with
    | (Ret _, w') => (Ret true, w')
    | (Raise e, w') =>
        (Raise (Exn Exception ("Error saving file: " +:+ exn_str e)), w')
    end /\
  fst (file_utils_rest.save_content_to_file content output_path w)
    <> Ret false.
Proof.
  assert (Hcases :
    file_utils_rest.save_content_to_file content output_path w =
      match write_text output_path content w with
      | (Ret _, w') => (Ret true, w')
      | (Raise e, w') =>
          (Raise (Exn Exception ("Error saving file: " +:+ exn_str e)), w')
      end).
  { unfold file_utils_rest.save_content_to_file, write_text. unfold_io.
    destruct (open_w output_path "utf-8" w) as [[file | e] w1]; [|reflexivity].
    destruct (write_w file content w1) as [[[] | e] w2]; reflexivity. }
  split; [exact Hcases|]. rewrite Hcases.
  destruct (write_text output_path content w) as [[[] | e] w']; discriminate.
Qed.

(** X15.  [save_merged_file] of [file_merger.py] writes the content to
    the output file name joined to the temporary directory.  It returns
    that path when the file is written; when opening or writing fails
    with an error [e] it shows ["Error saving file: <e>"] with [st.error]
    and returns [None] instead of raising. *)
Theorem save_merged_file_outcome `{Session}
    (content output_filename : string) (w : World) :
  let output_path := os_path.join gettempdir output_filename in
  file_merger_rest.save_merged_file content output_filename w =
    match write_text output_path content w with
    | (Ret _, w') => (Ret (Some output_path), w')
    | (Raise e, w') =>
        match st_error ("Error saving file: " +:+ exn_str e) w' with
        | (Ret _, w'') => (Ret None, w'')
        | (Raise e', w'') => (Raise e', w'')
        end
    end.
Proof.
  cbn zeta. unfold file_merger_rest.save_merged_file, write_text. unfold_io.
  destruct (open_w (os_path.join gettempdir output_filename) "utf-8" w)
    as [[file | e] w1].
  - destruct (write_w file content w1) as [[[] | e] w2]; [reflexivity|].
    destruct (st_error _ w2) as [[[] | e'] w3]; reflexivity.
  - destruct (st_error _ w1) as [[[] | e'] w3]; reflexivity.
Qed.


Section uploads.
Context `{Session}.

Lemma upload_loop_paths (uploaded_files : list UploadedDoc) :
  forall file_paths temp_files w file_paths' temp_files' w',
    app_rest.upload_loop uploaded_files file_paths temp_files w
      = (Ret (file_paths', temp_files'), w') ->
    file_paths' = file_paths ++ List.map temp_path uploaded_files /\
    temp_files' = temp_files ++ List.map temp_path uploaded_files.
Proof.
  induction uploaded_files as [|u rest IH];
    intros file_paths temp_files w file_paths' temp_files' w'.
  - cbn. unfold ret. intros [= <- <- _]. rewrite !app_nil_r. split; reflexivity.
  - cbn [app_rest.upload_loop]. unfold bind at 1.
    destruct (open_wb _ w) as [[f | e] w1]; [|discriminate].
    unfold bind at 1.
    destruct (write_wb f _ w1) as [[[] | e] w2]; [|discriminate].
    intros Hloop. apply IH in Hloop as [-> ->].
    cbn [List.map]. rewrite <- !app_assoc. split; reflexivity.
Qed.

Lemma render_file_upload_individual_paths w w1 uploaded_files w2
    file_paths temp_files w' :
  choose_upload_method w = (Ret "Individual Files", w1) ->
  st_file_uploader "Choose files to merge" app_rest.upload_types w1
    = (Ret uploaded_files, w2) ->
  app_rest.render_file_upload w = (Ret (file_paths, temp_files), w') ->
  file_paths = List.map temp_path uploaded_files /\
  temp_files = List.map temp_path uploaded_files.
Proof.
  unfold choose_upload_method, app_rest.render_file_upload.
  intros Hhead Hup. unfold bind at 1. unfold bind at 1 in Hhead.
  destruct (st_subheader "Upload Files" w) as [[[] | e] w0]; [|discriminate].
  unfold bind at 1. rewrite Hhead. cbn [String.eqb Ascii.eqb Bool.eqb].
  unfold bind at 1. rewrite Hup.
  destruct uploaded_files as [|u rest].
  - unfold ret. intros [= <- <- _]. split; reflexivity.
  - intros Hloop. apply upload_loop_paths in Hloop. exact Hloop.
Qed.

End uploads.

(** X17.  With the method "Individual Files", when [render_file_upload]
    returns, each uploaded document has been stored under its own name
    directly in the temporary directory, and both lists it returns hold
    these paths in the order of the upload: every stored file is also
    registered for clean-up. *)
Theorem render_file_upload_individual `{Session}
    (w w1 : World) (uploaded_files : list UploadedDoc) (w2 : World)
    (file_paths temp_files : list string) (w' : World) :
  choose_upload_method w = (Ret "Individual Files", w1) ->
  st_file_uploader "Choose files to merge" app_rest.upload_types w1
    = (Ret uploaded_files, w2) ->
  app_rest.render_file_upload w = (Ret (file_paths, temp_files), w') ->
  file_paths =
    List.map (fun u => os_path.join gettempdir (doc_name u)) uploaded_files /\
  temp_files = file_paths.
Proof.
  intros Hhead Hup Hrun.
  destruct (render_file_upload_individual_paths _ _ _ _ _ _ _ Hhead Hup Hrun)
    as [-> ->].
  split; reflexivity.
Qed.

Lemma render_file_upload_individual_witness :
  ["/tmp/notes.txt"; "/tmp/notes.txt"] =
    List.map (fun u => os_path.join "/tmp" (fst u))
      (MemSession.docs example_same_name) /\
  ["/tmp/notes.txt"; "/tmp/notes.txt"] = ["/tmp/notes.txt"; "/tmp/notes.txt"].
Proof.
  apply (@render_file_upload_individual MemFS.platform
           (MemSession.session example_same_name)
           MemFS.empty MemFS.empty (MemSession.docs example_same_name)
           MemFS.empty ["/tmp/notes.txt"; "/tmp/notes.txt"]
           ["/tmp/notes.txt"; "/tmp/notes.txt"] example_uploaded);
    reflexivity.
Defined.

(** X18.  Two uploaded documents with the same name are stored under the
    same path, and the list handed to the Merge Engine holds that path
    twice; merging it gives two headers and no separator. *)
Theorem same_name_uploads_merge `{Session}
    (w w1 : World) (first second : UploadedDoc) (w2 : World)
    (file_paths temp_files : list string) (w3 : World)
    (separator : string) (w4 : World) :
  choose_upload_method w = (Ret "Individual Files", w1) ->
  st_file_uploader "Choose files to merge" app_rest.upload_types w1
    = (Ret [first; second], w2) ->
  doc_name first = doc_name second ->
  app_rest.render_file_upload w = (Ret (file_paths, temp_files), w3) ->
  file_paths = [temp_path first; temp_path first] /\
  exists pieces w5,
    app.merge_pieces file_paths separator w4 = (Ret pieces, w5) /\
    length (headers pieces) = 2%nat /\
    separators pieces = [].
Proof.
  intros Hhead Hup Hname Hrun.
  destruct (render_file_upload_individual_paths _ _ _ _ _ _ _ Hhead Hup Hrun)
    as [-> _].
  assert (Hsame : temp_path second = temp_path first)
    by (unfold temp_path; rewrite Hname; reflexivity).
  cbn [List.map]. rewrite Hsame. split; [reflexivity|].
  destruct (merge_pieces_headers_separators [temp_path first]
              (temp_path first) separator w4)
    as (pieces & w5 & Hmerge & Hh & Hs).
  exists pieces, w5. split; [exact Hmerge|]. split.
  - rewrite Hh. reflexivity.
  - rewrite Hs. cbn [List.filter]. rewrite String.eqb_refl. reflexivity.
Qed.

Lemma same_name_uploads_merge_witness :
  ["/tmp/notes.txt"; "/tmp/notes.txt"]
  = [ @temp_path _ (MemSession.session example_same_name)
        ("notes.txt", MemFS.bytes_of "first");
      @temp_path _ (MemSession.session example_same_name)
        ("notes.txt", MemFS.bytes_of "first") ] /\
  exists pieces w5,
    @app.merge_pieces MemFS.platform ["/tmp/notes.txt"; "/tmp/notes.txt"]
      "SEP" example_uploaded = (Ret pieces, w5) /\
    length (headers pieces) = 2%nat /\
    separators pieces = [].
Proof.
  apply (@same_name_uploads_merge MemFS.platform
           (MemSession.session example_same_name)
           MemFS.empty MemFS.empty
           ("notes.txt", MemFS.bytes_of "first")
           ("notes.txt", MemFS.bytes_of "second")
           MemFS.empty ["/tmp/notes.txt"; "/tmp/notes.txt"]
           ["/tmp/notes.txt"; "/tmp/notes.txt"]
           example_uploaded "SEP" example_uploaded);
    reflexivity.
Defined.

(** X19.  With the method "ZIP Archive", [render_file_upload] never lets
    an extraction error escape.  When no file was uploaded it returns two
    empty lists.  When extraction succeeds it returns the sorted eligible
    paths.  When the scratch directory cannot be created, or extraction
    fails with an error [e], it shows the error with [st.error] (for a
    failed extraction the text ["Error extracting zip file: <e>"]) and
    returns two empty lists.  In every case the list of files to clean up
    is empty: extracted files are never registered for clean-up. *)
Theorem render_file_upload_zip `{Session} (w : World) (mode : string)
    (w1 : World) :
  choose_upload_method w = (Ret mode, w1) ->
  mode <> "Individual Files" ->
  app_rest.render_file_upload w =
    match st_file_uploader_one "Upload ZIP archive containing text files"
            ["zip"] w1 with
    | (Raise e, w2) => (Raise e, w2)
    | (Ret None, w2) => (Ret ([], []), w2)
    | (Ret (Some zip_file), w2) =>
        match mkdtemp w2 with
        | (Raise e, w3) => (st_error (exn_str e);;; ret ([], [])) w3
        | (Ret temp_dir, w3) =>
            match extract_and_walk zip_file temp_dir w3 with
            | (Ret items, w4) =>
                (Ret (sorted (List.filter file_utils.is_text_file
                                (walked_files items)), []), w4)
            | (Raise e, w4) =>
                (st_error ("Error extracting zip file: " +:+ exn_str e);;;
                 ret ([], [])) w4
            end
        end
    end.
Proof.
  unfold choose_upload_method, app_rest.render_file_upload.
  intros Hhead Hmode. unfold bind at 1. unfold bind at 1 in Hhead.
  destruct (st_subheader "Upload Files" w) as [[[] | e] w0]; [|discriminate].
  unfold bind at 1. rewrite Hhead.
  apply String.eqb_neq in Hmode. rewrite Hmode.
  unfold bind at 1.
  destruct (st_file_uploader_one _ _ w1) as [[[zip_file |] | e] w2];
    try reflexivity.
  unfold bind at 1, try_. rewrite extract_zip_files_cases.
  destruct (mkdtemp w2) as [[temp_dir | e] w3].
  - destruct (extract_and_walk zip_file temp_dir w3) as [[items | e] w4];
      [reflexivity|].
    cbn [dispatch catches handler except_Exception exn_str]. unfold bind, ret.
    destruct (st_error _ w4) as [[[] | e'] w5]; reflexivity.
  - cbn [dispatch catches handler except_Exception]. unfold bind, ret.
    destruct (st_error _ w3) as [[[] | e'] w5]; reflexivity.
Qed.

Lemma render_file_upload_zip_witness :
  @app_rest.render_file_upload MemFS.platform (MemSession.session example_bad_zip)
    MemFS.empty
  = (Ret ([], []),
     {| MemFS.files := []; MemFS.tmp_count := 1;
        MemFS.ui_errors :=
          ["Error extracting zip file: File is not a zip file"] |}).
Proof.
  rewrite (@render_file_upload_zip MemFS.platform
             (MemSession.session example_bad_zip)
             MemFS.empty "ZIP Archive" MemFS.empty);
    [reflexivity | reflexivity | discriminate].
Defined.

